(** * backend-explode-kittens: the HTTP handlers over the Redis store

    A shallow embedding of [main.go] (the revision with the score
    handlers): the Redis key space the handlers talk to, the
    [http.ResponseWriter] they write to, and the five handlers
    [SignupHandler], [GetAllUsersHandler], [LoginHandler],
    [UpdateScoreHandler] and [GetHighestScoreHandler], followed by the
    properties of the specification, each settled on this embedding. *)

From Stdlib Require Import ZArith Lia String Ascii.
From stdpp Require Import base strings gmap list fin_maps.

Local Open Scope string_scope.
Local Open Scope Z_scope.

(** ** Go's [int] and [strconv]

    [int] is 64 bits wide on the platforms the server is built for.
    Arithmetic wraps around; [strconv.Atoi] refuses what does not fit. *)

Module Strconv.

Definition MaxInt : Z := 2 ^ 63 - 1.
Definition MinInt : Z := - 2 ^ 63.

Definition in_int (z : Z) : Prop := MinInt <= z <= MaxInt.

(** The value an [int] computation carries: the result modulo 2^64, read
    back as a signed number. *)
Definition wrap (z : Z) : Z := (z + 2 ^ 63) mod 2 ^ 64 - 2 ^ 63.

(** [score += user.Score] *)
Definition add_int (a b : Z) : Z := wrap (a + b).

Definition is_digit (c : ascii) : bool :=
  let n := nat_of_ascii c in ((48 <=? n)%nat && (n <=? 57)%nat)%bool.

Definition digit_val (c : ascii) : Z := Z.of_nat (nat_of_ascii c) - 48.

Definition digit_char (d : Z) : ascii := ascii_of_nat (48 + Z.to_nat d).

(** The digit loop of [ParseUint] in base 10: any other byte is a syntax
    error. *)
Fixpoint parse_digits (acc : Z) (s : string) : option Z :=
  match s with
  | EmptyString => Some acc
  | String c rest =>
      if is_digit c then parse_digits (10 * acc + digit_val c) rest else None
  end.

(** [strconv.Atoi]: an optional sign, at least one digit, and a value
    within [int]; [None] stands for the [*NumError] it returns
    otherwise. *)
Definition Atoi (s : string) : option Z :=
  match s with
  | EmptyString => None
  | String c rest =>
      let neg := Ascii.eqb c "-" in
      let digits := if (neg || Ascii.eqb c "+")%bool then rest else s in
      match digits with
      | EmptyString => None
      | _ =>
          match parse_digits 0 digits with
          | None => None
          | Some un =>
              if neg then (if 2 ^ 63 <? un then None else Some (- un))
              else (if 2 ^ 63 <=? un then None else Some un)
          end
      end
  end.

(** The digit loop of [FormatInt]: least significant digit first, each
    one put in front of what is already there. *)
Fixpoint format_digits (fuel : nat) (n : Z) (acc : string) : string :=
  match fuel with
  | O => acc
  | S fuel' =>
      let acc' := String (digit_char (n mod 10)) acc in
      if n / 10 =? 0 then acc' else format_digits fuel' (n / 10) acc'
  end.

(** [strconv.Itoa], which is how go-redis writes an [int] argument of
    [HSet] on the wire. *)
Definition Itoa (z : Z) : string :=
  let n := Z.abs z in
  let ds := format_digits (S (Z.to_nat (Z.log2 n))) n EmptyString in
  if z <? 0 then String "-" ds else ds.

End Strconv.

(** ** The Redis server behind [redisClient]

    One key space; a key holds a plain string or a hash of fields. A
    command sent to a key of the other kind is answered with WRONGTYPE.
    Failures of the connection itself are outside this model. *)

Module Redis.

Inductive value : Type :=
  | RString (s : string)
  | RHash (h : gmap string string).

(** What a Go [error] is here; [None] of type [option error] is [nil]. *)
Inductive error : Type :=
  | Nil          (* redis.Nil: the key or the field is not there *)
  | WrongType    (* WRONGTYPE reply of the server *)
  | NumError     (* strconv.Atoi could not read the reply *)
  | DecodeError. (* encoding/json could not read the request body *)

#[global] Instance error_eq_dec : EqDecision error.
Proof. solve_decision. Defined.

(** The commands the handlers send, in the order they are sent. *)
Inductive Cmd : Type :=
  | GET (key : string)
  | SET (key val : string)
  | HGET (key field : string)
  | HSET (key field val : string)
  | HGETALL (key : string).

Definition get (db : gmap string value) (key : string) : string * option error :=
  match db !! key with
  | None => ("", Some Nil)
  | Some (RString s) => (s, None)
  | Some (RHash _) => ("", Some WrongType)
  end.

(** SET puts a plain string under the key, whatever was there. *)
Definition set (db : gmap string value) (key val : string)
  : gmap string value * option error :=
  (<[key := RString val]> db, None).

Definition hget (db : gmap string value) (key field : string)
  : string * option error :=
  match db !! key with
  | None => ("", Some Nil)
  | Some (RHash h) =>
      match h !! field with
      | Some v => (v, None)
      | None => ("", Some Nil)
      end
  | Some (RString _) => ("", Some WrongType)
  end.

Definition hset (db : gmap string value) (key field val : string)
  : gmap string value * option error :=
  match db !! key with
  | None => (<[key := RHash {[field := val]}]> db, None)
  | Some (RHash h) => (<[key := RHash (<[field := val]> h)]> db, None)
  | Some (RString _) => (db, Some WrongType)
  end.

Definition hgetall (db : gmap string value) (key : string)
  : gmap string string * option error :=
  match db !! key with
  | None => (∅, None)
  | Some (RHash h) => (h, None)
  | Some (RString _) => (∅, Some WrongType)
  end.

(** [StringCmd.Int]: the command's error if it has one, else
    [strconv.Atoi] of the reply. The number that comes with an error is
    0 here; no handler reads it. *)
Definition Int (reply : string * option error) : Z * option error :=
  match snd reply with
  | Some e => (0, Some e)
  | None =>
      match Strconv.Atoi (fst reply) with
      | Some n => (n, None)
      | None => (0, Some NumError)
      end
  end.

(** A hash collection as the specification speaks of it: the fields of
    the hash under [name]. A key that is not there is the empty
    collection; under a key that holds a plain string there is none. *)
Definition collection (db : gmap string value) (name : string)
  : option (gmap string string) :=
  match db !! name with
  | None => Some ∅
  | Some (RHash h) => Some h
  | Some (RString _) => None
  end.

End Redis.

Export Redis (error(..), Cmd(..), value(..)).

(** ** Requests, JSON and the response writer *)

Record User : Type := mkUser {
  Email : string;
  Password : string;
  Score : Z
}.

Record ErrorResponse : Type := mkErrorResponse {
  Message : string
}.

(** A JSON document, as far as [encoding/json] produces them here. *)
Unset Elimination Schemes.
Inductive JSON : Type :=
  | JNull
  | JNumber (n : Z)
  | JString (s : string)
  | JArray (items : list JSON)
  | JObject (members : list (string * JSON)).
Set Elimination Schemes.

(** The body of a request, by what [Decode(&user)] makes of it: bytes
    that it rejects, or a document that it reads into a [User]. *)
Inductive RequestBody : Type :=
  | Malformed (raw : string)
  | JsonUser (u : User).

Record Request : Type := mkRequest {
  Method : string;
  Body : RequestBody
}.

Definition MethodOptions : string := "OPTIONS".

Definition StatusOK : Z := 200.
Definition StatusCreated : Z := 201.
Definition StatusBadRequest : Z := 400.
Definition StatusUnauthorized : Z := 401.
Definition StatusNotFound : Z := 404.
Definition StatusInternalServerError : Z := 500.

(** [json.NewDecoder(r.Body).Decode(&user)] on a zero [User]. *)
Definition Decode (b : RequestBody) : User * option error :=
  match b with
  | Malformed _ => (mkUser "" "" 0, Some DecodeError)
  | JsonUser u => (u, None)
  end.

Definition MarshalUser (u : User) : JSON :=
  JObject [("email", JString (Email u));
           ("password", JString (Password u));
           ("score", JNumber (Score u))].

(** [json.Marshal(users)]: a slice that was never appended to is [nil]
    and is written as [null]. It cannot fail on this type. *)
Definition MarshalUsers (users : list User) : JSON * option error :=
  match users with
  | [] => (JNull, None)
  | _ => (JArray (MarshalUser <$> users), None)
  end.

Definition MarshalErrorResponse (e : ErrorResponse) : JSON :=
  JObject [("message", JString (Message e))].

(** [map[string]int{"score": score}] *)
Definition MarshalScore (score : Z) : JSON :=
  JObject [("score", JNumber score)].

(** What is written to the response: a line of text ([fmt.Fprintln],
    [http.Error]) or a JSON document. *)
Inductive Payload : Type :=
  | Text (line : string)
  | Json (doc : JSON).

Record ResponseWriter : Type := mkResponseWriter {
  header : gmap string string;
  status : option Z;        (* [None]: WriteHeader has not been called *)
  written : list Payload
}.

Definition newResponseWriter : ResponseWriter := mkResponseWriter ∅ None [].

(** The status line the client sees: 200 unless the handler said
    otherwise. *)
Definition StatusCode (w : ResponseWriter) : Z := default StatusOK (status w).

(** ** Handlers as state transformers

    A handler runs against the response writer of its request and the
    connection to the store. The connection keeps the commands sent so
    far, so that "performs no store operation" can be said. Writing to
    the server log is not modelled: nothing reads it. *)

Record Env : Type := mkEnv {
  w : ResponseWriter;
  db : gmap string value;
  sent : list Cmd
}.

Definition Handler (A : Type) : Type := Env -> A * Env.

Definition ret {A} (a : A) : Handler A := fun e => (a, e).

Definition bind {A B} (m : Handler A) (k : A -> Handler B) : Handler B :=
  fun e => let (a, e') := m e in k a e'.

Declare Scope handler_scope.
Delimit Scope handler_scope with handler.
Bind Scope handler_scope with Handler.

Notation "x <- m ;; k" := (bind m (fun x => k))
  (at level 20, m at level 99, k at level 200, only parsing) : handler_scope.
Notation "' p <- m ;; k" := (bind m (fun x => let 'p := x in k))
  (at level 20, p pattern, m at level 99, k at level 200, only parsing)
  : handler_scope.
Notation "m ;; k" := (bind m (fun _ => k))
  (at level 100, k at level 200, only parsing, right associativity)
  : handler_scope.

Local Open Scope handler_scope.

Definition onWriter (f : ResponseWriter -> ResponseWriter) : Handler unit :=
  fun e => (tt, mkEnv (f (w e)) (db e) (sent e)).

(** [w.Header().Set(key, val)] *)
Definition Header_Set (key val : string) : Handler unit :=
  onWriter (fun rw => mkResponseWriter (<[key := val]> (header rw)) (status rw) (written rw)).

(** [w.WriteHeader(code)]: only the first call counts. *)
Definition WriteHeader (code : Z) : Handler unit :=
  onWriter (fun rw =>
    match status rw with
    | None => mkResponseWriter (header rw) (Some code) (written rw)
    | Some _ => rw
    end).

(** [w.Write]: sends the header with 200 if it has not been sent. *)
Definition Write (p : Payload) : Handler unit :=
  onWriter (fun rw =>
    mkResponseWriter (header rw)
      (Some (default StatusOK (status rw))) (written rw ++ [p])).

(** [fmt.Fprintln(w, line)] *)
Definition Fprintln (line : string) : Handler unit := Write (Text line).

(** [json.NewEncoder(w).Encode(v)], given the document of [v]. *)
Definition Encode (doc : JSON) : Handler unit := Write (Json doc).

(** [http.Error(w, msg, code)] *)
Definition http_Error (msg : string) (code : Z) : Handler unit :=
  Header_Set "Content-Type" "text/plain; charset=utf-8" ;;
  Header_Set "X-Content-Type-Options" "nosniff" ;;
  WriteHeader code ;;
  Fprintln msg.

(** [redisClient.Get(ctx, key).Result()] *)
Definition Get (key : string) : Handler (string * option error) :=
  fun e => (Redis.get (db e) key, mkEnv (w e) (db e) (sent e ++ [GET key])).

(** [redisClient.HGet(ctx, key, field)] *)
Definition HGet (key field : string) : Handler (string * option error) :=
  fun e => (Redis.hget (db e) key field,
            mkEnv (w e) (db e) (sent e ++ [HGET key field])).

(** [redisClient.HSet(ctx, key, field, val).Err()] *)
Definition HSet (key field val : string) : Handler (option error) :=
  fun e => let (db', err) := Redis.hset (db e) key field val in
           (err, mkEnv (w e) db' (sent e ++ [HSET key field val])).

(** [redisClient.HGetAll(ctx, key).Result()] *)
Definition HGetAll (key : string) : Handler (gmap string string * option error) :=
  fun e => (Redis.hgetall (db e) key,
            mkEnv (w e) (db e) (sent e ++ [HGETALL key])).

(** [err != nil], [err == redis.Nil] and [err != nil && err != redis.Nil] *)
Definition failed (err : option error) : bool :=
  match err with
  | None => false
  | Some _ => true
  end.

Definition is_Nil (err : option error) : bool :=
  match err with
  | Some Nil => true
  | _ => false
  end.

Definition failed_not_Nil (err : option error) : bool :=
  failed err && negb (is_Nil err).

Definition cors (methods : string) : Handler unit :=
  Header_Set "Access-Control-Allow-Origin" "http://localhost:5173" ;;
  Header_Set "Access-Control-Allow-Methods" methods ;;
  Header_Set "Access-Control-Allow-Headers" "Content-Type".

(** [w.Header().Set("Content-Type", "application/json");
    w.WriteHeader(code); json.NewEncoder(w).Encode(v)] *)
Definition respondJSON (code : Z) (doc : JSON) : Handler unit :=
  Header_Set "Content-Type" "application/json" ;;
  WriteHeader code ;;
  Encode doc.

Definition SignupHandler (r : Request) : Handler unit :=
  cors "POST, OPTIONS" ;;
  if (Method r =? MethodOptions)%string then ret tt else
  let (user, err) := Decode (Body r) in
  if failed err then http_Error "Invalid request body" StatusBadRequest else
  (* Check if the user already exists *)
  '(val, err) <- Get (Email user) ;;
  if failed_not_Nil err then
    http_Error "Error checking user existence" StatusInternalServerError
  else if negb (val =? "")%string then
    respondJSON StatusBadRequest
      (MarshalErrorResponse (mkErrorResponse "User already exists"))
  else
  (* Store user data in Redis *)
  err <- HSet "users" (Email user) (Password user) ;;
  if failed err then
    http_Error "Error storing user data" StatusInternalServerError
  else
  WriteHeader StatusCreated ;;
  Fprintln "User signed up successfully".

(** [User{Email: email, Password: password}] for an entry of the map. *)
Definition user_of (entry : string * string) : User :=
  mkUser entry.1 entry.2 0.

Definition GetAllUsersHandler (r : Request) : Handler unit :=
  '(usersMap, err) <- HGetAll "users" ;;
  if failed err then
    http_Error "Error retrieving user data" StatusInternalServerError
  else
  (* [range usersMap]: Go leaves the order open; [map_to_list] is one. *)
  let users := user_of <$> map_to_list usersMap in
  let (jsonData, err) := MarshalUsers users in
  if failed err then
    http_Error "Error encoding user data to JSON" StatusInternalServerError
  else
  Header_Set "Content-Type" "application/json" ;;
  WriteHeader StatusOK ;;
  Write (Json jsonData).

Definition LoginHandler (r : Request) : Handler unit :=
  cors "POST, OPTIONS" ;;
  if (Method r =? MethodOptions)%string then ret tt else
  let (user, err) := Decode (Body r) in
  if failed err then http_Error "Invalid request body" StatusBadRequest else
  (* Check if the user exists *)
  '(password, err) <- Get (Email user) ;;
  if failed err then
    (if is_Nil err then
       http_Error "User not found" StatusNotFound
     else
       http_Error "Error retrieving user data" StatusInternalServerError)
  else if negb (Password user =? password)%string then
    respondJSON StatusUnauthorized
      (MarshalErrorResponse (mkErrorResponse "Incorrect password"))
  else
    respondJSON StatusOK
      (MarshalErrorResponse (mkErrorResponse "Login successful")).

Definition UpdateScoreHandler (r : Request) : Handler unit :=
  cors "POST, OPTIONS" ;;
  if (Method r =? MethodOptions)%string then ret tt else
  let (user, err) := Decode (Body r) in
  if failed err then http_Error "Invalid request body" StatusBadRequest else
  (* Check if the user exists *)
  '(val, err) <- HGet "users" (Email user) ;;
  if failed_not_Nil err then
    http_Error "Error checking user existence" StatusInternalServerError
  else if (val =? "")%string then
    respondJSON StatusNotFound
      (MarshalErrorResponse (mkErrorResponse "User not found"))
  else
  (* Update user's score *)
  reply <- HGet "scores" (Email user) ;;
  let (score, err) := Redis.Int reply in
  if failed_not_Nil err then
    http_Error "Error retrieving user score" StatusInternalServerError
  else
  let score := Strconv.add_int score (Score user) in
  err <- HSet "scores" (Email user) (Strconv.Itoa score) ;;
  if failed err then
    http_Error "Error updating user score" StatusInternalServerError
  else
  WriteHeader StatusOK ;;
  Fprintln "User score updated successfully".

Definition GetHighestScoreHandler (r : Request) : Handler unit :=
  cors "GET, OPTIONS" ;;
  if (Method r =? MethodOptions)%string then ret tt else
  let (user, err) := Decode (Body r) in
  if failed err then http_Error "Invalid request body" StatusBadRequest else
  reply <- HGet "scores" (Email user) ;;
  let (score, err) := Redis.Int reply in
  if failed_not_Nil err then
    http_Error "Error retrieving user score" StatusInternalServerError
  else
  respondJSON StatusOK (MarshalScore score).

(** The earlier revision of [main.go], before the score handlers: its
    [SignupHandler] stored the password under the plain key of the
    email, where its [LoginHandler], the same as the one above, looks
    for it. *)
Module Rev1.

(** [redisClient.Set(ctx, key, val, 0).Err()] *)
Definition Set_ (key val : string) : Handler (option error) :=
  fun e => let (db', err) := Redis.set (db e) key val in
           (err, mkEnv (w e) db' (sent e ++ [SET key val])).

Definition SignupHandler (r : Request) : Handler unit :=
  cors "POST, OPTIONS" ;;
  if (Method r =? MethodOptions)%string then ret tt else
  let (user, err) := Decode (Body r) in
  if failed err then http_Error "Invalid request body" StatusBadRequest else
  (* Check if the user already exists *)
  '(val, err) <- Get (Email user) ;;
  if failed_not_Nil err then
    http_Error "Error checking user existence" StatusInternalServerError
  else if negb (val =? "")%string then
    respondJSON StatusBadRequest
      (MarshalErrorResponse (mkErrorResponse "User already exists"))
  else
  (* Store user data in Redis *)
  err <- Set_ (Email user) (Password user) ;;
  if failed err then
    http_Error "Error storing user data" StatusInternalServerError
  else
  WriteHeader StatusCreated ;;
  Fprintln "User signed up successfully".

End Rev1.

(** ** Serving a request

    The server hands the handler a fresh response writer; the store is
    what the requests before left. *)

Record Outcome : Type := mkOutcome {
  response : ResponseWriter;
  store : gmap string value;
  commands : list Cmd
}.

Definition serve (h : Request -> Handler unit) (r : Request)
    (s : gmap string value) : Outcome :=
  let e := snd (h r (mkEnv newResponseWriter s [])) in
  mkOutcome (w e) (db e) (sent e).

(** The routes of [main], and a run of requests one after the other. *)
Inductive Route : Type :=
  | Signup | ListUsers | Login | UpdateScore | GetScore.

Definition handler (rt : Route) : Request -> Handler unit :=
  match rt with
  | Signup => SignupHandler
  | ListUsers => GetAllUsersHandler
  | Login => LoginHandler
  | UpdateScore => UpdateScoreHandler
  | GetScore => GetHighestScoreHandler
  end.

Fixpoint run (reqs : list (Route * Request)) (s : gmap string value)
  : gmap string value :=
  match reqs with
  | [] => s
  | (rt, r) :: rest => run rest (store (serve (handler rt) r s))
  end.

(** ** The vocabulary of the specification *)

(** A well-formed request carrying [u]: not the CORS preflight, and a
    body that decodes to [u]. *)
Definition well_formed (r : Request) (u : User) : Prop :=
  Method r ≠ MethodOptions ∧ Body r = JsonUser u.

(** The request a client sends with the JSON document of [u] as body. *)
Definition post (u : User) : Request := mkRequest "POST" (JsonUser u).

(** What the client sees of an outcome: status line and body. *)
Definition reply (o : Outcome) : Z * list Payload :=
  (StatusCode (response o), written (response o)).

(** The structured message [{message: m}]. *)
Definition message (m : string) : Payload :=
  Json (MarshalErrorResponse (mkErrorResponse m)).

(** The score the store has for an email: the number under its field of
    the scores collection, 0 if the field is not there. *)
Definition stored_score (s : gmap string value) (email : string) : option Z :=
  match Redis.collection s "scores" with
  | Some hs =>
      match hs !! email with
      | None => Some 0
      | Some v => Strconv.Atoi v
      end
  | None => None
  end.

(** The users whose signup a run of requests answered with 201, in the
    order of the run. *)
Fixpoint accepted (reqs : list (Route * Request)) (s : gmap string value)
  : list User :=
  match reqs with
  | [] => []
  | (rt, r) :: rest =>
      let o := serve (handler rt) r s in
      let here :=
        match rt with
        | Signup =>
            if StatusCode (response o) =? StatusCreated
            then [fst (Decode (Body r))] else []
        | _ => []
        end in
      here ++ accepted rest (store o)
  end.

(** The user collection with the given signups written to it in order. *)
Definition register (h : gmap string string) (us : list User)
  : gmap string string :=
  foldl (fun m u => <[Email u := Password u]> m) h us.

(** A store as these handlers build it from the empty one: nothing but
    the two hashes [users] and [scores]. *)
Definition served (s : gmap string value) : Prop :=
  forall key v, s !! key = Some v ->
    (key = "users" \/ key = "scores") /\ exists h, v = RHash h.

(** The store moves along [R] whatever the handler does. *)
Definition steps (R : relation (gmap string value)) {A} (m : Handler A) : Prop :=
  forall e, R (db e) (db (m e).2).

(** ** The router of [main]

    The five routes, in the order [main] registers them, each with the
    methods it is registered for. *)

Record RouteEntry : Type := mkRouteEntry {
  path : string;
  methods : list string;
  target : Route
}.

Definition routes : list RouteEntry :=
  [ mkRouteEntry "/users/signup" ["POST"; "OPTIONS"] Signup;
    mkRouteEntry "/users" ["GET"] ListUsers;
    mkRouteEntry "/users/login" ["POST"; "OPTIONS"] Login;
    mkRouteEntry "/users/score" ["POST"; "OPTIONS"] UpdateScore;
    mkRouteEntry "/users/highest" ["GET"; "OPTIONS"] GetScore ].

(** A route matches a request whose path is its own and whose method is
    one of its methods. *)
Definition matches (method urlPath : string) (e : RouteEntry) : bool :=
  (urlPath =? path e)%string && existsb (String.eqb method) (methods e).

(** The first route that matches, if any. *)
Definition Match (method urlPath : string) : option Route :=
  target <$> List.find (matches method urlPath) routes.

(** The router serving a request: the handler of the route that
    matches. [None]: no route matches and the router answers by itself
    (not found, method not allowed); no handler of [main.go] runs. *)
Definition ServeHTTP (method urlPath : string) (body : RequestBody)
    (s : gmap string value) : option Outcome :=
  match Match method urlPath with
  | Some rt => Some (serve (handler rt) (mkRequest method body) s)
  | None => None
  end.

(** Every field of the scores collection reads as an [int]. *)
Definition numeric_scores (s : gmap string value) : Prop :=
  forall hs email v,
    Redis.collection s "scores" = Some hs -> hs !! email = Some v ->
    exists n, Strconv.Atoi v = Some n.

(** * Properties

    ** Numbers on the wire

    What [HSet] writes for an [int], [HGet(...).Int()] reads back. *)

Module StrconvFacts.
Import Strconv.

(** Within the range of [int] nothing wraps. *)
Lemma wrap_in_int z : in_int z -> wrap z = z.
Proof.
  unfold in_int, MinInt, MaxInt, wrap. intros Hz.
  rewrite Z.mod_small by lia. lia.
Qed.

Lemma wrap_range z : in_int (wrap z).
Proof.
  unfold in_int, MinInt, MaxInt, wrap.
  pose proof (Z.mod_pos_bound (z + 2 ^ 63) (2 ^ 64)). lia.
Qed.

Lemma digit_char_spec d :
  0 <= d < 10 -> is_digit (digit_char d) = true /\ digit_val (digit_char d) = d.
Proof.
  intros Hd. unfold is_digit, digit_val, digit_char.
  rewrite nat_ascii_embedding by lia. split.
  - apply andb_true_iff. split; apply Nat.leb_le; lia.
  - lia.
Qed.

Lemma is_digit_not_sign c :
  is_digit c = true -> Ascii.eqb c "-" = false /\ Ascii.eqb c "+" = false.
Proof.
  intros Hc. split.
  - destruct (Ascii.eqb_spec c "-") as [->|]; [discriminate Hc | reflexivity].
  - destruct (Ascii.eqb_spec c "+") as [->|]; [discriminate Hc | reflexivity].
Qed.

(** Reading the digits that were written gives the number back,
    whatever follows them. *)
Lemma parse_format_digits fuel : forall n rest,
  0 <= n < 10 ^ Z.of_nat fuel ->
  parse_digits 0 (format_digits fuel n rest) = parse_digits n rest.
Proof.
  induction fuel as [|fuel IH]; intros n rest Hn.
  - simpl in *. replace n with 0 by lia. reflexivity.
  - rewrite Nat2Z.inj_succ, Z.pow_succ_r in Hn by lia.
    pose proof (Z.mod_pos_bound n 10) as Hmod.
    pose proof (Z.div_mod n 10) as Hdiv.
    destruct (digit_char_spec (n mod 10)) as [Hd Hv]; [lia|].
    cbn [format_digits].
    destruct (Z.eqb_spec (n / 10) 0) as [Hq|Hq].
    + cbn [parse_digits]. rewrite Hd, Hv. f_equal. lia.
    + rewrite IH.
      * cbn [parse_digits]. rewrite Hd, Hv. f_equal. lia.
      * split; [apply Z.div_pos; lia | apply Z.div_lt_upper_bound; lia].
Qed.

Lemma format_digits_head fuel : forall n acc,
  0 <= n ->
  exists c rest, format_digits (S fuel) n acc = String c rest /\ is_digit c = true.
Proof.
  induction fuel as [|fuel IH]; intros n acc Hn.
  - exists (digit_char (n mod 10)), acc. split.
    + cbn [format_digits]. by destruct (n / 10 =? 0).
    + apply digit_char_spec, Z.mod_pos_bound. lia.
  - remember (S fuel) as f. cbn [format_digits].
    destruct (n / 10 =? 0).
    + eexists _, _. split; [reflexivity|].
      apply digit_char_spec, Z.mod_pos_bound. lia.
    + subst f. apply IH, Z.div_pos; lia.
Qed.

(** A number has no more decimal digits than binary ones. *)
Lemma fuel_enough n :
  0 <= n -> n < 10 ^ Z.of_nat (S (Z.to_nat (Z.log2 n))).
Proof.
  intros Hn. rewrite Nat2Z.inj_succ, Z2Nat.id by apply Z.log2_nonneg.
  destruct (Z.eq_dec n 0) as [->|Hne]; [reflexivity|].
  pose proof (Z.log2_spec n ltac:(lia)) as [_ Hlt].
  eapply Z.lt_le_trans; [exact Hlt|].
  apply Z.pow_le_mono_l. lia.
Qed.

(** [Atoi(Itoa(z)) == z] for every [int]. *)
Lemma Atoi_Itoa z : in_int z -> Atoi (Itoa z) = Some z.
Proof.
  unfold in_int, MinInt, MaxInt. intros Hz. unfold Itoa.
  pose proof (fuel_enough (Z.abs z) (Z.abs_nonneg z)) as Hfuel.
  pose proof (parse_format_digits _ (Z.abs z) EmptyString
                (conj (Z.abs_nonneg z) Hfuel)) as Hparse.
  destruct (format_digits_head (Z.to_nat (Z.log2 (Z.abs z))) (Z.abs z)
              EmptyString (Z.abs_nonneg z)) as (c & rest & Hds & Hc).
  rewrite Hds in *.
  change (parse_digits (Z.abs z) "") with (Some (Z.abs z)) in Hparse.
  destruct (Z.ltb_spec z 0) as [Hneg|Hpos].
  - unfold Atoi. change (Ascii.eqb "-" "-") with true. cbv beta iota zeta.
    cbn [orb]. rewrite Hparse.
    destruct (Z.ltb_spec (2 ^ 63) (Z.abs z)); [lia|]. f_equal. lia.
  - unfold Atoi. destruct (is_digit_not_sign c Hc) as [-> ->].
    cbv beta iota zeta. cbn [orb]. rewrite Hparse.
    destruct (Z.leb_spec (2 ^ 63) (Z.abs z)); [lia|]. f_equal. lia.
Qed.

End StrconvFacts.

(** ** Frame rules

    What a handler does to the store, read off its shape: only [HSet]
    moves the store, everything else leaves it where it is. *)

Section Frame.
Variable R : relation (gmap string value).
Context `{!PreOrder R}.
Variable writable : string -> Prop.
Hypothesis R_hset : forall s key field val,
  writable key -> R s (Redis.hset s key field val).1.

Lemma steps_ret {A} (a : A) : steps R (ret a).
Proof. intros e. reflexivity. Qed.

Lemma steps_bind {A B} (m : Handler A) (k : A -> Handler B) :
  steps R m -> (forall a, steps R (k a)) -> steps R (bind m k).
Proof.
  intros Hm Hk e. unfold bind. specialize (Hm e).
  destruct (m e) as [a e']. etrans; [exact Hm | apply Hk].
Qed.

Lemma steps_onWriter f : steps R (onWriter f).
Proof. intros e. reflexivity. Qed.

Lemma steps_Get key : steps R (Get key).
Proof. intros e. reflexivity. Qed.

Lemma steps_HGet key field : steps R (HGet key field).
Proof. intros e. reflexivity. Qed.

Lemma steps_HGetAll key : steps R (HGetAll key).
Proof. intros e. reflexivity. Qed.

Lemma steps_HSet key field val : writable key -> steps R (HSet key field val).
Proof.
  intros Hk e. unfold HSet. specialize (R_hset (db e) key field val Hk).
  destruct (Redis.hset (db e) key field val). exact R_hset.
Qed.

Lemma steps_if {A} (b : bool) (m1 m2 : Handler A) :
  steps R m1 -> steps R m2 -> steps R (if b then m1 else m2).
Proof. by destruct b. Qed.

Lemma steps_serve h r s : steps R (h r) -> R s (store (serve h r s)).
Proof. intros Hh. apply (Hh (mkEnv newResponseWriter s [])). Qed.
End Frame.

Ltac frame_step :=
  first
    [ match goal with |- PreOrder _ => first [assumption | apply _] end
    | apply steps_ret | apply steps_onWriter | apply steps_Get
    | apply steps_HGet | apply steps_HGetAll
    | apply steps_bind; [| | intros ?]
    | apply steps_if
    | match goal with
      | |- steps _ (let (_, _) := ?p in _) => destruct p
      | |- steps _ (match ?p with _ => _ end) => destruct p
      end ].

Ltac frame :=
  unfold SignupHandler, GetAllUsersHandler, LoginHandler, UpdateScoreHandler,
    GetHighestScoreHandler, cors, respondJSON, http_Error, Fprintln, Encode,
    Write, WriteHeader, Header_Set;
  repeat frame_step.

Lemma Login_readonly r : steps eq (LoginHandler r).
Proof. frame. Qed.

Lemma ListUsers_readonly r : steps eq (GetAllUsersHandler r).
Proof. frame. Qed.

Lemma GetScore_readonly r : steps eq (GetHighestScoreHandler r).
Proof. frame. Qed.

Lemma UpdateScore_keeps_users r :
  steps (fun s s' => s' !! "users" = s !! "users") (UpdateScoreHandler r).
Proof.
  assert (PreOrder (fun s s' : gmap string value => s' !! "users" = s !! "users")).
  { split; [done | intros x y z H1 H2; by rewrite H2]. }
  frame. apply (steps_HSet _ (fun k => k = "scores")); [|done].
  intros st key field val ->. unfold Redis.hset.
  destruct (st !! "scores") as [[?|?]|]; cbn; by rewrite ?lookup_insert_ne.
Qed.

(** C10: LoginHandler, GetAllUsersHandler and GetHighestScoreHandler leave
    the store as it was, for every request, well-formed or not; and
    UpdateScoreHandler leaves the user collection (the key [users]) as
    it was. *)
Theorem readonly_handlers (r : Request) (s : gmap string value) :
  store (serve LoginHandler r s) = s
  /\ store (serve GetAllUsersHandler r s) = s
  /\ store (serve GetHighestScoreHandler r s) = s
  /\ store (serve UpdateScoreHandler r s) !! "users" = s !! "users".
Proof.
  split; [|split; [|split]].
  - symmetry. apply (steps_serve eq), Login_readonly.
  - symmetry. apply (steps_serve eq), ListUsers_readonly.
  - symmetry. apply (steps_serve eq), GetScore_readonly.
  - apply (steps_serve (fun s s' => s' !! "users" = s !! "users")),
      UpdateScore_keeps_users.
Qed.

(** ** One request at a time *)

Lemma well_formed_post u : well_formed (post u) u.
Proof. split; [discriminate | reflexivity]. Qed.

(** Run a handler on a well-formed request up to its first command. *)
Ltac enter H :=
  let Hm := fresh "Hm" in
  let Hb := fresh "Hb" in
  destruct H as [Hm Hb];
  unfold reply, serve, SignupHandler, LoginHandler, UpdateScoreHandler,
    GetHighestScoreHandler, bind, cors, bind;
  cbn; rewrite Hb, (proj2 (String.eqb_neq _ _) Hm); cbn.

(** C4: a well-formed UpdateScore request whose email has no entry in
    the user collection is answered 404 with the structured message
    "User not found"; the only command sent is the lookup in the user
    collection, and the store, the scores collection with it, is as it
    was. *)
Theorem UpdateScore_unknown_user s r u h :
  well_formed r u ->
  Redis.collection s "users" = Some h ->
  h !! Email u = None ->
  let o := serve UpdateScoreHandler r s in
  reply o = (StatusNotFound, [message "User not found"])
  /\ header (response o) !! "Content-Type" = Some "application/json"
  /\ store o = s
  /\ commands o = [HGET "users" (Email u)].
Proof.
  intros H Hc Hh. enter H.
  unfold Redis.hget, Redis.collection in *.
  destruct (s !! "users") as [[?|?]|]; simplify_eq; rewrite ?Hh; done.
Qed.

Lemma UpdateScore_unknown_user_witness :
  let o := serve UpdateScoreHandler (post (mkUser "a@b.c" "" 5)) ∅ in
  reply o = (StatusNotFound, [message "User not found"])
  /\ header (response o) !! "Content-Type" = Some "application/json"
  /\ store o = ∅
  /\ commands o = [HGET "users" "a@b.c"].
Proof.
  apply (UpdateScore_unknown_user ∅ (post (mkUser "a@b.c" "" 5))
           (mkUser "a@b.c" "" 5) ∅ (well_formed_post _));
    reflexivity.
Defined.

(** C9: a well-formed UpdateScore request for an email whose entry in
    the user collection is the empty string is answered 404 "User not
    found", as if the entry were not there, and the store is as it
    was. *)
Theorem UpdateScore_empty_password s r u h :
  well_formed r u ->
  Redis.collection s "users" = Some h ->
  h !! Email u = Some "" ->
  let o := serve UpdateScoreHandler r s in
  reply o = (StatusNotFound, [message "User not found"])
  /\ store o = s
  /\ commands o = [HGET "users" (Email u)].
Proof.
  intros H Hc Hh. enter H.
  unfold Redis.hget, Redis.collection in *.
  destruct (s !! "users") as [[?|?]|]; simplify_eq; rewrite ?Hh; done.
Qed.

Lemma UpdateScore_empty_password_witness :
  let s : gmap string value := {["users" := RHash {["a@b.c" := ""]}]} in
  let o := serve UpdateScoreHandler (post (mkUser "a@b.c" "" 5)) s in
  reply o = (StatusNotFound, [message "User not found"])
  /\ store o = s
  /\ commands o = [HGET "users" "a@b.c"].
Proof.
  apply (UpdateScore_empty_password _ (post (mkUser "a@b.c" "" 5))
           (mkUser "a@b.c" "" 5) {["a@b.c" := ""]} (well_formed_post _));
    reflexivity.
Defined.

(** C5: a well-formed GetScore request whose email has no entry in the
    scores collection is answered 200 with the JSON body [{score: 0}]. *)
Theorem GetScore_missing s r u hs :
  well_formed r u ->
  Redis.collection s "scores" = Some hs ->
  hs !! Email u = None ->
  let o := serve GetHighestScoreHandler r s in
  reply o = (StatusOK, [Json (MarshalScore 0)])
  /\ header (response o) !! "Content-Type" = Some "application/json".
Proof.
  intros H Hc Hh. enter H.
  unfold Redis.hget, Redis.collection in *.
  destruct (s !! "scores") as [[?|?]|]; simplify_eq; rewrite ?Hh; done.
Qed.

Lemma GetScore_missing_witness :
  let o := serve GetHighestScoreHandler (post (mkUser "a@b.c" "" 0)) ∅ in
  reply o = (StatusOK, [Json (MarshalScore 0)])
  /\ header (response o) !! "Content-Type" = Some "application/json".
Proof.
  apply (GetScore_missing ∅ (post (mkUser "a@b.c" "" 0))
           (mkUser "a@b.c" "" 0) ∅ (well_formed_post _));
    reflexivity.
Defined.



(** ** Bodies that do not decode *)

(** C8, as the code has it: on a request whose body fails JSON decoding,
    each of SignupHandler, LoginHandler, UpdateScoreHandler and
    GetHighestScoreHandler sends no command to the store and leaves it
    as it was; the answer is 400 "Invalid request body", unless the
    request is a CORS preflight (method OPTIONS), which is answered 200
    with an empty body before the body of the request is looked at. *)
Theorem undecodable_body s r raw rt :
  Body r = Malformed raw ->
  rt <> ListUsers ->
  let o := serve (handler rt) r s in
  commands o = []
  /\ store o = s
  /\ reply o =
       if (Method r =? MethodOptions)%string then (StatusOK, [])
       else (StatusBadRequest, [Text "Invalid request body"]).
Proof.
  intros Hb Hrt.
  destruct rt; [| done | | |];
    unfold reply, serve, handler, SignupHandler, LoginHandler,
      UpdateScoreHandler, GetHighestScoreHandler, bind, cors, bind;
    cbn; rewrite Hb; by destruct (Method r =? MethodOptions)%string.
Qed.

Lemma undecodable_body_witness :
  let o := serve SignupHandler (mkRequest "POST" (Malformed "{")) ∅ in
  commands o = []
  /\ store o = ∅
  /\ reply o = (StatusBadRequest, [Text "Invalid request body"]).
Proof.
  apply (undecodable_body ∅ (mkRequest "POST" (Malformed "{")) "{" Signup);
    [reflexivity | discriminate].
Defined.

(** C8 as stated fails on a preflight: its body (here the empty one)
    does not decode, and each of the four handlers answers 200, not
    400. *)
Lemma preflight_not_rejected :
  let r := mkRequest "OPTIONS" (Malformed "") in
  (Decode (Body r)).2 = Some DecodeError
  /\ reply (serve SignupHandler r ∅) = (StatusOK, [])
  /\ reply (serve LoginHandler r ∅) = (StatusOK, [])
  /\ reply (serve UpdateScoreHandler r ∅) = (StatusOK, [])
  /\ reply (serve GetHighestScoreHandler r ∅) = (StatusOK, []).
Proof. vm_compute. repeat split; reflexivity. Qed.

(** ** Scores *)

Lemma stored_score_cases s e n :
  stored_score s e = Some n ->
  exists hs, Redis.collection s "scores" = Some hs
    /\ ((hs !! e = None /\ n = 0)
        \/ exists v, hs !! e = Some v /\ Strconv.Atoi v = Some n).
Proof.
  unfold stored_score. destruct (Redis.collection s "scores") as [hs|]; [|done].
  intros Hn. exists hs. split; [done|].
  destruct (hs !! e) as [v|]; [right; eauto | left; by simplify_eq].
Qed.

(** [HGet(ctx, "scores", email).Int()] reads the stored score, with no
    error but [redis.Nil]. *)
Lemma Int_hget_scores s e n :
  stored_score s e = Some n ->
  (Redis.Int (Redis.hget s "scores" e)).1 = n
  /\ failed_not_Nil (Redis.Int (Redis.hget s "scores" e)).2 = false.
Proof.
  intros (hs & Hc & Hcase)%stored_score_cases.
  unfold Redis.hget, Redis.collection in *.
  destruct (s !! "scores") as [[?|?]|]; simplify_eq.
  - destruct Hcase as [[-> ->]|(v & -> & Hv)]; [done|].
    unfold Redis.Int. cbn. by rewrite Hv.
  - destruct Hcase as [[_ ->]|(v & Hv & _)]; [done|].
    by rewrite lookup_empty in Hv.
Qed.

Lemma stored_score_hset s e v n :
  is_Some (Redis.collection s "scores") ->
  Strconv.Atoi v = Some n ->
  (Redis.hset s "scores" e v).2 = None
  /\ stored_score (Redis.hset s "scores" e v).1 e = Some n.
Proof.
  intros [hs Hc] Hv. unfold stored_score, Redis.hset, Redis.collection in *.
  destruct (s !! "scores") as [[?|?]|]; simplify_eq; cbn;
    rewrite lookup_insert_eq; cbn.
  - by rewrite lookup_insert_eq.
  - by rewrite lookup_singleton_eq.
Qed.

(** One UpdateScore for a user with a non-empty password: 200, and the
    stored score is the [int] sum of what was there and the delta. *)
Lemma UpdateScore_adds s r u hu pw prev :
  well_formed r u ->
  Redis.collection s "users" = Some hu ->
  hu !! Email u = Some pw ->
  pw <> "" ->
  stored_score s (Email u) = Some prev ->
  let o := serve UpdateScoreHandler r s in
  reply o = (StatusOK, [Text "User score updated successfully"])
  /\ stored_score (store o) (Email u) = Some (Strconv.add_int prev (Score u))
  /\ Redis.collection (store o) "users" = Some hu.
Proof.
  intros H Hc Hh Hpw Hprev. enter H.
  assert (Redis.hget s "users" (Email u) = (pw, None)) as ->.
  { unfold Redis.hget, Redis.collection in *.
    destruct (s !! "users") as [[?|?]|]; simplify_eq; by rewrite ?Hh. }
  cbn. rewrite (proj2 (String.eqb_neq _ _) Hpw). cbn.
  destruct (Int_hget_scores _ _ _ Hprev) as [Hn Herr].
  destruct (Redis.Int (Redis.hget s "scores" (Email u))) as [n err].
  cbn in Hn, Herr. subst n. rewrite Herr. unfold HSet. cbn.
  destruct (stored_score_hset s (Email u)
              (Strconv.Itoa (Strconv.add_int prev (Score u)))
              (Strconv.add_int prev (Score u))) as [Hok Hnew].
  { apply stored_score_cases in Hprev as (hs & -> & _). eauto. }
  { apply StrconvFacts.Atoi_Itoa, StrconvFacts.wrap_range. }
  destruct (Redis.hset s "scores" (Email u) _) as [s' err'] eqn:Hset.
  cbn in Hok, Hnew. subst err'. cbn. split; [done|]. split; [done|].
  unfold Redis.hset, Redis.collection in *.
  destruct (s !! "scores") as [[?|?]|]; simplify_eq;
    by rewrite lookup_insert_ne.
Qed.

(** GetScore answers with the stored score. *)
Lemma GetScore_reads s r u n :
  well_formed r u ->
  stored_score s (Email u) = Some n ->
  let o := serve GetHighestScoreHandler r s in
  reply o = (StatusOK, [Json (MarshalScore n)])
  /\ header (response o) !! "Content-Type" = Some "application/json".
Proof.
  intros H Hn. enter H.
  destruct (Int_hget_scores _ _ _ Hn) as [Hv Herr].
  destruct (Redis.Int (Redis.hget s "scores" (Email u))) as [n' err].
  cbn in Hv, Herr. subst n'. rewrite Herr. done.
Qed.

(** C3, as the code has it: for an email whose entry in the user
    collection is a non-empty password, an UpdateScore whose sum stays
    within [int] is answered 200 and leaves as stored score the previous
    one (0 if there was none) plus the delta of the request; and so,
    with no prior score entry, deltas 5 and 3 one after the other are
    both answered 200 and GetScore then answers [{score: 8}]. *)
Theorem UpdateScore_accumulates s r u hu pw prev :
  well_formed r u ->
  Redis.collection s "users" = Some hu ->
  hu !! Email u = Some pw ->
  pw <> "" ->
  stored_score s (Email u) = Some prev ->
  Strconv.in_int (prev + Score u) ->
  let o := serve UpdateScoreHandler r s in
  (StatusCode (response o) = StatusOK
   /\ stored_score (store o) (Email u) = Some (prev + Score u))
  /\ (forall hs r3 u3 rq uq,
        Redis.collection s "scores" = Some hs ->
        hs !! Email u = None ->
        Score u = 5 ->
        well_formed r3 u3 -> Email u3 = Email u -> Score u3 = 3 ->
        well_formed rq uq -> Email uq = Email u ->
        let o2 := serve UpdateScoreHandler r3 (store o) in
        let o3 := serve GetHighestScoreHandler rq (store o2) in
        StatusCode (response o2) = StatusOK
        /\ reply o3 = (StatusOK, [Json (MarshalScore 8)])).
Proof.
  intros Hr Hc Hh Hpw Hprev Hfit.
  destruct (UpdateScore_adds s r u hu pw prev Hr Hc Hh Hpw Hprev)
    as (Hreply & Hscore & Husers).
  unfold Strconv.add_int in Hscore.
  rewrite StrconvFacts.wrap_in_int in Hscore by exact Hfit.
  cbn zeta. split; [split; [by injection Hreply | exact Hscore]|].
  intros hs r3 u3 rq uq Hs Hnone H5 Hr3 He3 H3 Hrq Heq.
  assert (prev = 0) as ->.
  { unfold stored_score in Hprev. rewrite Hs, Hnone in Hprev. congruence. }
  rewrite H5 in Hscore. rewrite <- He3 in Hscore, Hh.
  destruct (UpdateScore_adds _ r3 u3 hu pw _ Hr3 Husers Hh Hpw Hscore)
    as (Hreply3 & Hscore3 & _).
  rewrite H3 in Hscore3. rewrite He3, <- Heq in Hscore3.
  destruct (GetScore_reads _ rq uq _ Hrq Hscore3) as [Hget _].
  split; [by injection Hreply3 | exact Hget].
Qed.

Lemma UpdateScore_accumulates_witness :
  let s : gmap string value := {["users" := RHash {["a@b.c" := "pw"]}]} in
  let o := serve UpdateScoreHandler (post (mkUser "a@b.c" "" 5)) s in
  let o2 := serve UpdateScoreHandler (post (mkUser "a@b.c" "" 3)) (store o) in
  let o3 := serve GetHighestScoreHandler (post (mkUser "a@b.c" "" 0)) (store o2) in
  (StatusCode (response o) = StatusOK
   /\ stored_score (store o) "a@b.c" = Some 5)
  /\ StatusCode (response o2) = StatusOK
  /\ reply o3 = (StatusOK, [Json (MarshalScore 8)]).
Proof.
  intros s.
  assert (Strconv.in_int (0 + 5)) as Hfit.
  { unfold Strconv.in_int, Strconv.MinInt, Strconv.MaxInt. simpl. lia. }
  pose proof (UpdateScore_accumulates s (post (mkUser "a@b.c" "" 5))
                (mkUser "a@b.c" "" 5) {["a@b.c" := "pw"]} "pw" 0
                (well_formed_post _) eq_refl eq_refl
                ltac:(discriminate) eq_refl Hfit) as [Hfirst Hthen].
  split; [exact Hfirst|].
  apply (Hthen ∅ (post (mkUser "a@b.c" "" 3)) (mkUser "a@b.c" "" 3)
           (post (mkUser "a@b.c" "" 0)) (mkUser "a@b.c" "" 0));
    first [reflexivity | apply well_formed_post].
Defined.

(** C3 as stated fails twice. An email that is in the user collection
    with the empty password (a signup with no password puts it there) is
    answered 404 by UpdateScore. And a sum that leaves [int] wraps
    around: after the largest [int], a delta of 1 stores the smallest. *)
Lemma UpdateScore_accumulates_fails :
  (let signup := serve SignupHandler (post (mkUser "a@b.c" "" 0)) ∅ in
   let update :=
     serve UpdateScoreHandler (post (mkUser "a@b.c" "" 5)) (store signup) in
   Redis.collection (store signup) "users" = Some {["a@b.c" := ""]}
   /\ Redis.collection (store signup) "scores" = Some ∅
   /\ reply update = (StatusNotFound, [message "User not found"]))
  /\
  (let s1 := store (serve SignupHandler (post (mkUser "a@b.c" "pw" 0)) ∅) in
   let s2 := store (serve UpdateScoreHandler
                      (post (mkUser "a@b.c" "" Strconv.MaxInt)) s1) in
   let update := serve UpdateScoreHandler (post (mkUser "a@b.c" "" 1)) s2 in
   stored_score s2 "a@b.c" = Some Strconv.MaxInt
   /\ StatusCode (response update) = StatusOK
   /\ stored_score (store update) "a@b.c" = Some Strconv.MinInt).
Proof. vm_compute. repeat split; reflexivity. Qed.

(** ** Signup, and Login after it *)

(** What a signup does to the user collection: answered 201, it has
    written the password under the email; answered anything else, it
    has written nothing. *)
Lemma Signup_effect r s h :
  Redis.collection s "users" = Some h ->
  let o := serve SignupHandler r s in
  let u := (Decode (Body r)).1 in
  if StatusCode (response o) =? StatusCreated
  then Redis.collection (store o) "users" = Some (<[Email u := Password u]> h)
  else store o = s.
Proof.
  intros Hc. destruct r as [m [raw|u]];
    unfold serve, SignupHandler, bind, cors, bind; cbn;
    (destruct (m =? MethodOptions)%string; [done|]); cbn; [done|].
  unfold Redis.get, Redis.collection in *.
  destruct (s !! Email u) as [[stored|?]|]; cbn; [|done|].
  - destruct (stored =? "")%string; cbn; [|done].
    unfold HSet; cbn; unfold Redis.hset.
    destruct (s !! "users") as [[?|?]|]; simplify_eq; cbn;
      by rewrite lookup_insert_eq.
  - unfold HSet; cbn; unfold Redis.hset.
    destruct (s !! "users") as [[?|?]|]; simplify_eq; cbn;
      by rewrite lookup_insert_eq.
Qed.

(** C1, where the code departs from it: SignupHandler looks for the
    email among the plain keys (GET) and writes it as a field of the
    hash [users] (HSET), so the check never sees an earlier signup.
    After a Signup answered 201, a second Signup for the same email is
    answered 201 again, not 400, and writes its password over the
    first. (An email that is itself the name [users] is left out: the
    second GET then meets the hash and the answer is 500.) *)
Theorem Signup_twice s r1 u1 r2 u2 :
  well_formed r1 u1 ->
  well_formed r2 u2 ->
  Email u2 = Email u1 ->
  Email u1 <> "users" ->
  let o1 := serve SignupHandler r1 s in
  let o2 := serve SignupHandler r2 (store o1) in
  StatusCode (response o1) = StatusCreated ->
  reply o2 = (StatusCreated, [Text "User signed up successfully"])
  /\ commands o2 = [GET (Email u1); HSET "users" (Email u1) (Password u2)]
  /\ exists h, Redis.collection (store o2) "users" = Some h
       /\ h !! Email u1 = Some (Password u2).
Proof.
  intros H1 H2 He Hne. enter H1. enter H2. rewrite He.
  unfold Redis.get, HSet.
  destruct (s !! Email u1) as [[stored|?]|] eqn:Hkey; cbn; [|done|].
  - destruct (String.eqb_spec stored "") as [->|]; cbn; [|done].
    unfold Redis.hset.
    destruct (s !! "users") as [[?|?]|] eqn:Husers; cbn; [done| |];
      rewrite lookup_insert_ne, Hkey by done; cbn;
      rewrite lookup_insert_eq; cbn; intros _;
      (split; [done|]); (split; [done|]);
      unfold Redis.collection; rewrite lookup_insert_eq;
      eexists; (split; [done|]); by rewrite lookup_insert_eq.
  - unfold Redis.hset.
    destruct (s !! "users") as [[?|?]|] eqn:Husers; cbn; [done| |];
      rewrite lookup_insert_ne, Hkey by done; cbn;
      rewrite lookup_insert_eq; cbn; intros _;
      (split; [done|]); (split; [done|]);
      unfold Redis.collection; rewrite lookup_insert_eq;
      eexists; (split; [done|]); by rewrite lookup_insert_eq.
Qed.

Lemma Signup_twice_witness :
  let o1 := serve SignupHandler (post (mkUser "a@b.c" "pw" 0)) ∅ in
  let o2 := serve SignupHandler (post (mkUser "a@b.c" "other" 0)) (store o1) in
  reply o1 = (StatusCreated, [Text "User signed up successfully"])
  /\ reply o2 = (StatusCreated, [Text "User signed up successfully"])
  /\ commands o2 = [GET "a@b.c"; HSET "users" "a@b.c" "other"]
  /\ exists h, Redis.collection (store o2) "users" = Some h
       /\ h !! "a@b.c" = Some "other".
Proof.
  split; [reflexivity|].
  apply (Signup_twice ∅ (post (mkUser "a@b.c" "pw" 0)) (mkUser "a@b.c" "pw" 0)
           (post (mkUser "a@b.c" "other" 0)) (mkUser "a@b.c" "other" 0)
           (well_formed_post _) (well_formed_post _));
    [reflexivity | discriminate | reflexivity].
Defined.

(** C2, where the code departs from it: LoginHandler looks the password
    up among the plain keys (GET), where SignupHandler did not put it.
    In a store with no plain key under the email, a Login after a Signup
    answered 201 is answered 404 "User not found", whatever password it
    carries, the right one included. (As in C1, the email [users] is
    left out: there the answer is 500.) *)
Theorem Login_after_Signup s r u rl ul :
  well_formed r u ->
  well_formed rl ul ->
  Email ul = Email u ->
  s !! Email u = None ->
  Email u <> "users" ->
  let o1 := serve SignupHandler r s in
  let o2 := serve LoginHandler rl (store o1) in
  StatusCode (response o1) = StatusCreated ->
  reply o2 = (StatusNotFound, [Text "User not found"])
  /\ commands o2 = [GET (Email u)].
Proof.
  intros H1 H2 He Hkey Hne. enter H1. enter H2. rewrite He.
  unfold Redis.get, HSet. rewrite Hkey. cbn.
  unfold Redis.hset.
  destruct (s !! "users") as [[?|?]|] eqn:Husers; cbn; [done| |];
    rewrite lookup_insert_ne, Hkey by done; done.
Qed.

Lemma Login_after_Signup_witness :
  let o1 := serve SignupHandler (post (mkUser "a@b.c" "pw" 0)) ∅ in
  let o2 := serve LoginHandler (post (mkUser "a@b.c" "pw" 0)) (store o1) in
  reply o1 = (StatusCreated, [Text "User signed up successfully"])
  /\ reply o2 = (StatusNotFound, [Text "User not found"])
  /\ commands o2 = [GET "a@b.c"].
Proof.
  split; [reflexivity|].
  apply (Login_after_Signup ∅ (post (mkUser "a@b.c" "pw" 0))
           (mkUser "a@b.c" "pw" 0) (post (mkUser "a@b.c" "pw" 0))
           (mkUser "a@b.c" "pw" 0) (well_formed_post _) (well_formed_post _));
    [reflexivity | reflexivity | discriminate | reflexivity].
Defined.

(** *** The earlier revision

    There the check and the write met on the same key: a second signup
    was turned down and a login found what the signup had stored. *)

(** X18: in the earlier revision, after a signup with a non-empty
    password answered 201, a second signup for the same email is
    answered 400 "User already exists" and writes nothing. *)
Lemma Signup_twice_rev1 s r1 u1 r2 u2 :
  well_formed r1 u1 ->
  well_formed r2 u2 ->
  Email u2 = Email u1 ->
  Password u1 <> "" ->
  let o1 := serve Rev1.SignupHandler r1 s in
  let o2 := serve Rev1.SignupHandler r2 (store o1) in
  StatusCode (response o1) = StatusCreated ->
  reply o2 = (StatusBadRequest, [message "User already exists"])
  /\ store o2 = store o1
  /\ commands o2 = [GET (Email u1)].
Proof.
  intros [Hm1 Hb1] [Hm2 Hb2] He Hpw.
  unfold reply, serve, Rev1.SignupHandler, bind, cors, bind. cbn.
  rewrite Hb1, Hb2, (proj2 (String.eqb_neq _ _) Hm1),
    (proj2 (String.eqb_neq _ _) Hm2). cbn. rewrite He.
  unfold Redis.get, Rev1.Set_.
  destruct (s !! Email u1) as [[stored|?]|]; cbn; [|done|].
  - destruct (stored =? "")%string; cbn; [|done].
    rewrite lookup_insert_eq. cbn.
    by rewrite (proj2 (String.eqb_neq _ _) Hpw).
  - rewrite lookup_insert_eq. cbn.
    by rewrite (proj2 (String.eqb_neq _ _) Hpw).
Qed.

(** X19: with the earlier revision's signup, a login for the email is
    answered 200 when its password is the one signed up with and 401
    when it is not. *)
Lemma Login_after_Signup_rev1 s r u rl ul :
  well_formed r u ->
  well_formed rl ul ->
  Email ul = Email u ->
  let o1 := serve Rev1.SignupHandler r s in
  let o2 := serve LoginHandler rl (store o1) in
  StatusCode (response o1) = StatusCreated ->
  reply o2 =
    if (Password ul =? Password u)%string
    then (StatusOK, [message "Login successful"])
    else (StatusUnauthorized, [message "Incorrect password"]).
Proof.
  intros [Hm1 Hb1] [Hm2 Hb2] He.
  unfold reply, serve, Rev1.SignupHandler, LoginHandler, bind, cors, bind. cbn.
  rewrite Hb1, Hb2, (proj2 (String.eqb_neq _ _) Hm1),
    (proj2 (String.eqb_neq _ _) Hm2). cbn. rewrite He.
  unfold Redis.get, Rev1.Set_.
  destruct (s !! Email u) as [[stored|?]|]; cbn; [|done|].
  - destruct (stored =? "")%string; cbn; [|done].
    rewrite lookup_insert_eq. cbn.
    by destruct (Password ul =? Password u)%string.
  - rewrite lookup_insert_eq. cbn.
    by destruct (Password ul =? Password u)%string.
Qed.

(** *** The same, over every store the handlers can build *)

Lemma served_empty : served ∅.
Proof. intros key v Hl. by rewrite lookup_empty in Hl. Qed.

Lemma served_hset s key field val :
  key = "users" \/ key = "scores" ->
  served s -> served (Redis.hset s key field val).1.
Proof.
  intros Hkey Hs. unfold Redis.hset.
  destruct (s !! key) as [[?|h]|]; cbn; [done | |];
    intros k v Hl;
    (destruct (decide (key = k)) as [<-|Hne];
     [rewrite lookup_insert_eq in Hl; simplify_eq; eauto
     |rewrite lookup_insert_ne in Hl by done; by apply Hs]).
Qed.

Lemma handler_served rt r :
  steps (fun s s' => served s -> served s') (handler rt r).
Proof.
  assert (PreOrder (fun s s' : gmap string value => served s -> served s')).
  { split; [by intros x | intros x y z Hxy Hyz Hx; by apply Hyz, Hxy]. }
  destruct rt; cbn [handler]; frame;
    apply (steps_HSet _ (fun k => k = "users" \/ k = "scores"));
    first [ by left | by right
          | intros st key field val Hk; by apply served_hset ].
Qed.

Lemma run_served reqs : forall s, served s -> served (run reqs s).
Proof.
  induction reqs as [|[rt r] reqs IH]; intros s Hs; [done|].
  cbn [run]. apply IH.
  by apply (steps_serve _ _ r s (handler_served rt r)).
Qed.

Lemma served_users s : served s -> is_Some (Redis.collection s "users").
Proof.
  intros Hs. unfold Redis.collection.
  destruct (s !! "users") as [[?|?]|] eqn:Hl; eauto.
  destruct (Hs _ _ Hl) as [_ [h Hh]]. discriminate Hh.
Qed.

Lemma served_no_plain_key s email :
  served s -> email <> "users" -> email <> "scores" -> s !! email = None.
Proof.
  intros Hs Hu Hc. destruct (s !! email) as [v|] eqn:Hl; [|done].
  destruct (Hs _ _ Hl) as [[?|?] _]; congruence.
Qed.

(** X21: after any run of requests from the empty store, a well-formed
    Signup is answered 201, whether or not the email signed up before:
    no signup is turned down as a duplicate. *)
Lemma Signup_never_turned_down reqs r u :
  well_formed r u ->
  Email u <> "users" -> Email u <> "scores" ->
  reply (serve SignupHandler r (run reqs ∅))
    = (StatusCreated, [Text "User signed up successfully"]).
Proof.
  intros H Hu Hc.
  pose proof (run_served reqs ∅ served_empty) as Hs.
  destruct (served_users _ Hs) as [h Hh].
  pose proof (served_no_plain_key _ _ Hs Hu Hc) as Hkey.
  enter H. unfold Redis.get, HSet. rewrite Hkey. cbn.
  unfold Redis.hset, Redis.collection in *.
  destruct (run reqs ∅ !! "users") as [[?|?]|]; simplify_eq; done.
Qed.

(** X22: after any run of requests from the empty store, a well-formed
    Login is answered 404, whoever signed up. *)
Lemma Login_never_finds reqs r u :
  well_formed r u ->
  Email u <> "users" -> Email u <> "scores" ->
  reply (serve LoginHandler r (run reqs ∅))
    = (StatusNotFound, [Text "User not found"]).
Proof.
  intros H Hu Hc.
  pose proof (run_served reqs ∅ served_empty) as Hs.
  pose proof (served_no_plain_key _ _ Hs Hu Hc) as Hkey.
  enter H. unfold Redis.get. by rewrite Hkey.
Qed.

(** ** Listing the users *)

(** On a store with a user collection, ListUsers answers 200 with the
    encoding of one [User] per entry of the collection. *)
Lemma ListUsers_lists s r h :
  Redis.collection s "users" = Some h ->
  let o := serve GetAllUsersHandler r s in
  let users := user_of <$> map_to_list h in
  reply o = (StatusOK, [Json (MarshalUsers users).1])
  /\ header (response o) !! "Content-Type" = Some "application/json"
  /\ store o = s.
Proof.
  intros Hc. unfold reply, serve, GetAllUsersHandler, bind, HGetAll. cbn.
  unfold Redis.hgetall, Redis.collection in *.
  destruct (s !! "users") as [[?|?]|]; simplify_eq; cbn.
  - by destruct (user_of <$> map_to_list h).
  - by rewrite map_to_list_empty.
Qed.

(** The slice built from the map: one element per entry, whatever the
    order of the iteration. *)
Lemma listed_users (h : gmap string string) :
  let users := user_of <$> map_to_list h in
  NoDup (Email <$> users)
  /\ (forall u, u ∈ users <-> h !! Email u = Some (Password u) /\ Score u = 0)
  /\ (users = [] <-> h = ∅).
Proof.
  cbn zeta. split; [|split].
  - rewrite <- list_fmap_compose. apply (NoDup_fst_map_to_list h).
  - intros [e p sc]. rewrite list_elem_of_fmap. cbn. split.
    + intros ([e' p'] & [= -> -> ->] & Hin).
      by apply elem_of_map_to_list in Hin.
    + intros [Hl ->]. exists (e, p). split; [done|].
      by apply elem_of_map_to_list.
  - split.
    + intros Hnil%fmap_nil_inv. by apply map_to_list_empty_iff.
    + intros ->. by rewrite map_to_list_empty.
Qed.

Lemma register_app h us1 us2 :
  register h (us1 ++ us2) = register (register h us1) us2.
Proof. apply foldl_app. Qed.

Lemma register_lookup us : forall (h : gmap string string) a,
  a ∈ us -> is_Some (register h us !! Email a).
Proof.
  induction us as [|u us IH] using rev_ind; intros h a Ha.
  - by apply elem_of_nil in Ha.
  - rewrite register_app. cbn. apply elem_of_app in Ha as [Ha|Ha].
    + destruct (decide (Email u = Email a)) as [->|Hne].
      * rewrite lookup_insert_eq. eauto.
      * rewrite lookup_insert_ne by done. by apply IH.
    + apply list_elem_of_singleton in Ha as ->.
      rewrite lookup_insert_eq. eauto.
Qed.

Lemma register_lookup_inv us : forall (h : gmap string string) e p,
  register h us !! e = Some p ->
  h !! e = Some p \/ exists a, a ∈ us /\ Email a = e /\ Password a = p.
Proof.
  induction us as [|u us IH] using rev_ind; intros h e p Hl.
  - by left.
  - rewrite register_app in Hl. cbn in Hl.
    destruct (decide (Email u = e)) as [<-|Hne].
    + rewrite lookup_insert_eq in Hl. right. exists u.
      split; [apply elem_of_app; right; by apply list_elem_of_singleton|].
      split; congruence.
    + rewrite lookup_insert_ne in Hl by done.
      destruct (IH _ _ _ Hl) as [?|(a & Ha & ? & ?)]; [by left|].
      right. exists a. split; [apply elem_of_app; by left | done].
Qed.

Lemma accepted_cons rt r reqs s :
  accepted ((rt, r) :: reqs) s =
  (accepted [(rt, r)] s ++ accepted reqs (store (serve (handler rt) r s)))%list.
Proof. cbn [accepted]. by rewrite app_nil_r. Qed.

(** What one request, of any route, does to the user collection. *)
Lemma handler_users rt r s h :
  Redis.collection s "users" = Some h ->
  let o := serve (handler rt) r s in
  Redis.collection (store o) "users" =
    Some (register h (accepted [(rt, r)] s)).
Proof.
  intros Hc. cbn zeta. unfold accepted. rewrite app_nil_r.
  destruct rt; cbn [handler].
  - pose proof (Signup_effect r s h Hc) as Heff. cbn zeta in Heff.
    destruct (StatusCode (response (serve SignupHandler r s)) =? StatusCreated).
    + exact Heff.
    + by rewrite Heff.
  - by rewrite <- (steps_serve eq _ r s (ListUsers_readonly r)).
  - by rewrite <- (steps_serve eq _ r s (Login_readonly r)).
  - unfold Redis.collection in *.
    by rewrite (steps_serve _ _ r s (UpdateScore_keeps_users r)).
  - by rewrite <- (steps_serve eq _ r s (GetScore_readonly r)).
Qed.

Lemma run_users reqs : forall s h,
  Redis.collection s "users" = Some h ->
  Redis.collection (run reqs s) "users" = Some (register h (accepted reqs s)).
Proof.
  induction reqs as [|[rt r] reqs IH]; intros s h Hc; [done|].
  pose proof (handler_users rt r s h Hc) as Hstep. cbn zeta in Hstep.
  cbn [run]. rewrite (IH _ _ Hstep).
  by rewrite (accepted_cons rt r reqs), register_app.
Qed.

(** C7, as the code has it: on a store with a user collection [h], and
    after any run of requests, ListUsers answers 200 with a JSON body
    that is [null] when the user collection is empty and otherwise an
    array with exactly one object, email and unredacted password and
    score 0, for every entry of the collection. The email of every
    signup of the run that was answered 201 is listed, and nothing is
    listed but entries of [h] and signups answered 201: a signup that
    was turned down has written nothing. *)
Theorem ListUsers_reflects_signups s h reqs r :
  Redis.collection s "users" = Some h ->
  let s' := run reqs s in
  let o := serve GetAllUsersHandler r s' in
  exists h' users,
    Redis.collection s' "users" = Some h'
    /\ reply o =
         (StatusOK,
          [Json match users with
                | [] => JNull
                | _ => JArray (MarshalUser <$> users)
                end])
    /\ header (response o) !! "Content-Type" = Some "application/json"
    /\ NoDup (Email <$> users)
    /\ (forall u, u ∈ users <-> h' !! Email u = Some (Password u) /\ Score u = 0)
    /\ (users = [] <-> h' = ∅)
    /\ (forall a, a ∈ accepted reqs s -> Email a ∈ Email <$> users)
    /\ (forall u, u ∈ users ->
          h !! Email u = Some (Password u)
          \/ exists a, a ∈ accepted reqs s
               /\ Email a = Email u /\ Password a = Password u).
Proof.
  intros Hc. cbn zeta.
  pose proof (run_users reqs s h Hc) as Hrun.
  destruct (ListUsers_lists _ r _ Hrun) as (Hreply & Hct & _).
  destruct (listed_users (register h (accepted reqs s))) as (Hnd & Hin & Hnil).
  cbn zeta in *.
  exists (register h (accepted reqs s)),
         (user_of <$> map_to_list (register h (accepted reqs s))).
  split; [done|]. split.
  { rewrite Hreply. unfold MarshalUsers. by destruct (user_of <$> _). }
  split; [done|]. split; [done|]. split; [done|]. split; [done|]. split.
  - intros a Ha. destruct (register_lookup _ h a Ha) as [p Hp].
    apply list_elem_of_fmap. exists (mkUser (Email a) p 0).
    split; [done|]. by apply Hin.
  - intros u [Hu _]%Hin. by apply register_lookup_inv.
Qed.

Lemma ListUsers_reflects_signups_witness :
  let reqs := [(Signup, post (mkUser "a@b.c" "pw" 0));
               (Signup, mkRequest "POST" (Malformed "{"));
               (Signup, post (mkUser "d@e.f" "qr" 0))] in
  let o := serve GetAllUsersHandler (mkRequest "GET" (Malformed "")) (run reqs ∅) in
  accepted reqs ∅ = [mkUser "a@b.c" "pw" 0; mkUser "d@e.f" "qr" 0]
  /\ exists h' users,
       Redis.collection (run reqs ∅) "users" = Some h'
       /\ reply o =
            (StatusOK,
             [Json match users with
                   | [] => JNull
                   | _ => JArray (MarshalUser <$> users)
                   end])
       /\ header (response o) !! "Content-Type" = Some "application/json"
       /\ NoDup (Email <$> users)
       /\ (forall u, u ∈ users <->
             h' !! Email u = Some (Password u) /\ Score u = 0)
       /\ (users = [] <-> h' = ∅)
       /\ (forall a, a ∈ accepted reqs ∅ -> Email a ∈ Email <$> users)
       /\ (forall u, u ∈ users ->
             (∅ : gmap string string) !! Email u = Some (Password u)
             \/ exists a, a ∈ accepted reqs ∅
                  /\ Email a = Email u /\ Password a = Password u).
Proof.
  intros reqs o. split; [reflexivity|].
  apply (ListUsers_reflects_signups ∅ ∅ reqs (mkRequest "GET" (Malformed ""))).
  reflexivity.
Defined.

(** C7 as stated fails on the empty user collection: the body is
    [null], not an array. *)
Lemma ListUsers_not_an_array :
  let o := serve GetAllUsersHandler (mkRequest "GET" (Malformed "")) ∅ in
  Redis.collection ∅ "users" = Some ∅
  /\ reply o = (StatusOK, [Json JNull]).
Proof. vm_compute. split; reflexivity. Qed.

(** * Beyond the specification: what else the code shows

    ** Every branch of every handler *)

(** Unfold a handler down to the lookups in the store. *)
Ltac open_reads :=
  unfold reply, serve, handler, SignupHandler, GetAllUsersHandler, LoginHandler,
    UpdateScoreHandler, GetHighestScoreHandler, bind, cors, bind,
    HSet, HGet, Get, HGetAll;
  cbn;
  unfold Redis.get, Redis.hget, Redis.hgetall, Redis.Int.

Ltac open_handlers := open_reads; unfold Redis.hset.

(** Follow every branch the handler can take. *)
Ltac branches := repeat (case_match; simplify_eq; cbn in * ).

(** X1: a response with an error status, 400 or above, has left the
    store as it was, whatever the handler, the request and the store:
    no handler writes and then fails. *)
Theorem errors_write_nothing rt r s :
  let o := serve (handler rt) r s in
  400 <= StatusCode (response o) -> store o = s.
Proof.
  destruct r as [m b]. destruct rt; open_handlers; branches; try done.
  all: intros; lia.
Qed.

Lemma errors_write_nothing_witness :
  let s : gmap string value := {["users" := RString "legacy"]} in
  let o := serve SignupHandler (post (mkUser "a@b.c" "pw" 0)) s in
  StatusCode (response o) = StatusInternalServerError /\ store o = s.
Proof.
  intros s o. split; [reflexivity|].
  apply (errors_write_nothing Signup (post (mkUser "a@b.c" "pw" 0)) s).
  vm_compute. discriminate.
Defined.

(** X2: a preflight (method OPTIONS) to any of the four handlers that
    answer it gets 200 with an empty body and the CORS origin header,
    whatever its body: no command is sent and the store is as it was,
    even when the body is a valid signup or score update. *)
Theorem preflight_any_body rt r s :
  Method r = MethodOptions ->
  rt <> ListUsers ->
  let o := serve (handler rt) r s in
  reply o = (StatusOK, [])
  /\ commands o = []
  /\ store o = s
  /\ header (response o) !! "Access-Control-Allow-Origin"
       = Some "http://localhost:5173".
Proof.
  intros Hm Hrt. destruct r as [m b]. cbn in Hm. subst m.
  destruct rt; try done; open_handlers; done.
Qed.

Lemma preflight_any_body_witness :
  let r := mkRequest "OPTIONS" (JsonUser (mkUser "a@b.c" "pw" 0)) in
  let o := serve SignupHandler r ∅ in
  reply o = (StatusOK, [])
  /\ commands o = []
  /\ store o = ∅
  /\ header (response o) !! "Access-Control-Allow-Origin"
       = Some "http://localhost:5173".
Proof.
  apply (preflight_any_body Signup
           (mkRequest "OPTIONS" (JsonUser (mkUser "a@b.c" "pw" 0))) ∅);
    [reflexivity | discriminate].
Defined.

(** X3: every response of SignupHandler, LoginHandler,
    UpdateScoreHandler and GetHighestScoreHandler, on every path
    through them, carries the CORS headers set at their top: nothing
    further down removes or overwrites them. *)
Theorem cors_headers_always rt r s :
  rt <> ListUsers ->
  let hd := header (response (serve (handler rt) r s)) in
  hd !! "Access-Control-Allow-Origin" = Some "http://localhost:5173"
  /\ hd !! "Access-Control-Allow-Headers" = Some "Content-Type".
Proof.
  intros Hrt. destruct r as [m b].
  destruct rt; try done; open_handlers; branches; done.
Qed.

Lemma cors_headers_always_witness :
  let hd := header (response (serve LoginHandler
                                (mkRequest "POST" (Malformed "{")) ∅)) in
  hd !! "Access-Control-Allow-Origin" = Some "http://localhost:5173"
  /\ hd !! "Access-Control-Allow-Headers" = Some "Content-Type".
Proof.
  apply (cors_headers_always Login (mkRequest "POST" (Malformed "{")) ∅).
  discriminate.
Defined.

(** X4: GetAllUsersHandler sets no CORS header on any response. *)
Theorem ListUsers_no_cors r s :
  let hd := header (response (serve GetAllUsersHandler r s)) in
  hd !! "Access-Control-Allow-Origin" = None
  /\ hd !! "Access-Control-Allow-Methods" = None
  /\ hd !! "Access-Control-Allow-Headers" = None.
Proof. open_handlers; branches; done. Qed.

(** X5: for every route that answers the preflight, the
    Access-Control-Allow-Methods header its handler sends lists exactly
    the methods [main] registers the route for. *)
Theorem allow_methods_as_routed i e r s :
  routes !! i = Some e ->
  target e <> ListUsers ->
  header (response (serve (handler (target e)) r s))
    !! "Access-Control-Allow-Methods"
  = Some (String.concat ", " (methods e)).
Proof.
  intros He Hrt. destruct r as [m b].
  do 5 (destruct i as [|i]; [cbn in He; simplify_eq; cbn [target methods] in *;
                             try done; open_handlers; branches; done|]).
  done.
Qed.

Lemma allow_methods_as_routed_witness :
  header (response (serve GetHighestScoreHandler
                      (post (mkUser "a@b.c" "" 0)) ∅))
    !! "Access-Control-Allow-Methods"
  = Some "GET, OPTIONS".
Proof.
  apply (allow_methods_as_routed 4%nat
           (mkRouteEntry "/users/highest" ["GET"; "OPTIONS"] GetScore)
           (post (mkUser "a@b.c" "" 0)) ∅);
    [reflexivity | discriminate].
Defined.

Lemma Match_routes method urlPath rt :
  Match method urlPath = Some rt ->
  exists e, e ∈ routes /\ target e = rt /\ urlPath = path e
            /\ method ∈ methods e.
Proof.
  unfold Match. destruct (List.find _ routes) as [e|] eqn:Hfind; [|done].
  intros [= <-]. apply find_some in Hfind as [Hin Hm].
  unfold matches in Hm. apply andb_true_iff in Hm as [Hp Hmeth].
  apply String.eqb_eq in Hp.
  apply existsb_exists in Hmeth as (m' & Hin' & Hm').
  apply String.eqb_eq in Hm'. subst m'.
  exists e. by rewrite !list_elem_of_In.
Qed.

(** X6: through the router, the store changes only on a POST to
    /users/signup or to /users/score; no GET and no OPTIONS request, and
    no request to another path, writes anything. *)
Theorem writes_only_on_post method urlPath body s o :
  ServeHTTP method urlPath body s = Some o ->
  store o <> s ->
  method = "POST" /\ (urlPath = "/users/signup" \/ urlPath = "/users/score").
Proof.
  unfold ServeHTTP. destruct (Match method urlPath) as [rt|] eqn:HM; [|done].
  intros [= <-] Hne.
  apply Match_routes in HM as (e & He & <- & -> & Hm).
  unfold routes in He.
  repeat (apply elem_of_cons in He as [->|He]);
    [| | | | |by apply elem_of_nil in He]; cbn [target methods path] in *.
  - repeat (apply elem_of_cons in Hm as [->|Hm]);
      [auto | | by apply elem_of_nil in Hm].
    exfalso. apply Hne. by open_handlers.
  - exfalso. apply Hne. symmetry. apply (steps_serve eq), ListUsers_readonly.
  - exfalso. apply Hne. symmetry. apply (steps_serve eq), Login_readonly.
  - repeat (apply elem_of_cons in Hm as [->|Hm]);
      [auto | | by apply elem_of_nil in Hm].
    exfalso. apply Hne. by open_handlers.
  - exfalso. apply Hne. symmetry. apply (steps_serve eq), GetScore_readonly.
Qed.

Lemma writes_only_on_post_witness :
  ("POST" : string) = "POST"
  /\ (("/users/signup" : string) = "/users/signup"
      \/ ("/users/signup" : string) = "/users/score").
Proof.
  apply (writes_only_on_post "POST" "/users/signup"
           (JsonUser (mkUser "a@b.c" "pw" 0)) ∅
           (serve SignupHandler (post (mkUser "a@b.c" "pw" 0)) ∅)).
  - reflexivity.
  - intros H. apply (f_equal (fun m => m !! "users")) in H.
    vm_compute in H. discriminate H.
Defined.

(** ** When the store answers with an error *)

(** X7: a stored score that does not read as an [int] makes GetScore
    answer 500 "Error retrieving user score", and UpdateScore too, for
    a user it would otherwise serve, without sending HSET: the field is
    never repaired. *)
Theorem corrupt_score s r u hs v :
  well_formed r u ->
  Redis.collection s "scores" = Some hs ->
  hs !! Email u = Some v ->
  Strconv.Atoi v = None ->
  reply (serve GetHighestScoreHandler r s)
    = (StatusInternalServerError, [Text "Error retrieving user score"])
  /\ (forall hu pw,
        Redis.collection s "users" = Some hu ->
        hu !! Email u = Some pw -> pw <> "" ->
        let o := serve UpdateScoreHandler r s in
        reply o = (StatusInternalServerError, [Text "Error retrieving user score"])
        /\ store o = s
        /\ commands o = [HGET "users" (Email u); HGET "scores" (Email u)]).
Proof.
  intros [Hm Hb] Hc Hl Hv. destruct r as [m b]. cbn in Hm, Hb. subst b.
  apply String.eqb_neq in Hm. unfold Redis.collection in Hc.
  split.
  - open_handlers. rewrite Hm. cbn. branches; try done; congruence.
  - intros hu pw Hu Hp Hpw. apply String.eqb_neq in Hpw.
    unfold Redis.collection in Hu.
    open_handlers. rewrite Hm. cbn. branches; try done; congruence.
Qed.

Lemma corrupt_score_witness :
  let s : gmap string value :=
    {["users" := RHash {["a@b.c" := "pw"]};
      "scores" := RHash {["a@b.c" := "1e3"]}]} in
  let r := post (mkUser "a@b.c" "" 1) in
  reply (serve GetHighestScoreHandler r s)
    = (StatusInternalServerError, [Text "Error retrieving user score"])
  /\ reply (serve UpdateScoreHandler r s)
    = (StatusInternalServerError, [Text "Error retrieving user score"])
  /\ store (serve UpdateScoreHandler r s) = s.
Proof.
  intros s r.
  destruct (corrupt_score s r (mkUser "a@b.c" "" 1) {["a@b.c" := "1e3"]} "1e3"
              (well_formed_post _) eq_refl eq_refl eq_refl) as [Hget Hupd].
  split; [exact Hget|].
  destruct (Hupd {["a@b.c" := "pw"]} "pw" eq_refl eq_refl ltac:(discriminate))
    as (Hreply & Hstore & _).
  split; [exact Hreply | exact Hstore].
Defined.

(** X8: when the key [users] holds a plain string (as a signup of the
    earlier revision with the email "users" leaves it), Signup of a new
    email, ListUsers and UpdateScore are all answered 500, and the store
    is as it was. *)
Theorem plain_users_key s v :
  s !! "users" = Some (RString v) ->
  (forall r u, well_formed r u ->
     s !! Email u = None ->
     let o := serve SignupHandler r s in
     reply o = (StatusInternalServerError, [Text "Error storing user data"])
     /\ store o = s)
  /\ (forall r,
      reply (serve GetAllUsersHandler r s)
        = (StatusInternalServerError, [Text "Error retrieving user data"]))
  /\ (forall r u, well_formed r u ->
      let o := serve UpdateScoreHandler r s in
      reply o = (StatusInternalServerError, [Text "Error checking user existence"])
      /\ store o = s).
Proof.
  intros Hs. split; [|split].
  - intros [m b] u [Hm Hb] He. cbn in Hm, Hb. subst b.
    apply String.eqb_neq in Hm.
    open_handlers. rewrite Hm. cbn. branches; done.
  - intros r. open_handlers. branches; done.
  - intros [m b] u [Hm Hb]. cbn in Hm, Hb. subst b.
    apply String.eqb_neq in Hm.
    open_handlers. rewrite Hm. cbn. branches; done.
Qed.

Lemma plain_users_key_witness :
  let s := store (serve Rev1.SignupHandler (post (mkUser "users" "pw" 0)) ∅) in
  reply (serve SignupHandler (post (mkUser "a@b.c" "pw" 0)) s)
    = (StatusInternalServerError, [Text "Error storing user data"])
  /\ reply (serve GetAllUsersHandler (mkRequest "GET" (Malformed "")) s)
    = (StatusInternalServerError, [Text "Error retrieving user data"]).
Proof.
  intros s.
  destruct (plain_users_key s "pw" eq_refl) as (Hsignup & Hlist & _).
  split; [|apply Hlist].
  apply (Hsignup (post (mkUser "a@b.c" "pw" 0)) (mkUser "a@b.c" "pw" 0)
           (well_formed_post _) eq_refl).
Defined.

(** X9: a Login whose email names a key that holds a hash, as "users"
    does once anyone has signed up, is answered 500 "Error retrieving
    user data". *)
Theorem Login_on_hash s r u h :
  well_formed r u ->
  s !! Email u = Some (RHash h) ->
  reply (serve LoginHandler r s)
    = (StatusInternalServerError, [Text "Error retrieving user data"]).
Proof.
  intros [Hm Hb] He. destruct r as [m b]. cbn in Hm, Hb. subst b.
  apply String.eqb_neq in Hm.
  open_handlers. rewrite Hm. cbn. branches; done.
Qed.

Lemma Login_on_hash_witness :
  let s := store (serve SignupHandler (post (mkUser "a@b.c" "pw" 0)) ∅) in
  reply (serve LoginHandler (post (mkUser "users" "pw" 0)) s)
    = (StatusInternalServerError, [Text "Error retrieving user data"]).
Proof.
  apply (Login_on_hash _ (post (mkUser "users" "pw" 0)) (mkUser "users" "pw" 0)
           {["a@b.c" := "pw"]} (well_formed_post _)).
  reflexivity.
Defined.

(** X10: a Signup for an email under which the store has a non-empty
    plain string (an account of the earlier revision) is answered 400
    with the structured message "User already exists"; only the GET is
    sent and the store is as it was. *)
Theorem Signup_existing_plain_key s r u stored :
  well_formed r u ->
  s !! Email u = Some (RString stored) ->
  stored <> "" ->
  let o := serve SignupHandler r s in
  reply o = (StatusBadRequest, [message "User already exists"])
  /\ header (response o) !! "Content-Type" = Some "application/json"
  /\ store o = s
  /\ commands o = [GET (Email u)].
Proof.
  intros [Hm Hb] He Hne. destruct r as [m b]. cbn in Hm, Hb. subst b.
  apply String.eqb_neq in Hm. apply String.eqb_neq in Hne.
  open_handlers. rewrite Hm. cbn. rewrite He. cbn. by rewrite Hne.
Qed.

Lemma Signup_existing_plain_key_witness :
  let s := store (serve Rev1.SignupHandler (post (mkUser "a@b.c" "pw" 0)) ∅) in
  let o := serve SignupHandler (post (mkUser "a@b.c" "other" 0)) s in
  reply o = (StatusBadRequest, [message "User already exists"])
  /\ header (response o) !! "Content-Type" = Some "application/json"
  /\ store o = s
  /\ commands o = [GET "a@b.c"].
Proof.
  apply (Signup_existing_plain_key _ (post (mkUser "a@b.c" "other" 0))
           (mkUser "a@b.c" "other" 0) "pw" (well_formed_post _));
    [reflexivity | discriminate].
Defined.

(** ** What one write touches *)

(** X11: UpdateScore, on any request, leaves every key but [scores] as
    it was, and within the scores collection the score of every email
    but the one of the request. *)
Theorem UpdateScore_isolated r s :
  let o := serve UpdateScoreHandler r s in
  (forall key, key <> "scores" -> store o !! key = s !! key)
  /\ (forall email, email <> Email (Decode (Body r)).1 ->
        stored_score (store o) email = stored_score s email).
Proof.
  destruct r as [m b]. cbn zeta. split.
  - intros key Hk. open_handlers. branches; try done;
      by rewrite lookup_insert_ne.
  - intros email He. unfold stored_score, Redis.collection.
    open_handlers. branches; try done;
      rewrite ?lookup_insert_eq in *; simplify_eq;
      rewrite ?lookup_insert_ne in * by done;
      rewrite ?lookup_singleton_ne in * by done; try done; try congruence.
Qed.

Ltac by_hset :=
  match goal with
  | H : Redis.hset _ _ _ _ = (?s', _) |- _ =>
      right; try eexists; by rewrite H
  end.

(** The store after a Signup, or an UpdateScore, is the store before or
    one HSET away from it. *)
Lemma Signup_store r s :
  let o := serve SignupHandler r s in
  let u := (Decode (Body r)).1 in
  store o = s \/ store o = (Redis.hset s "users" (Email u) (Password u)).1.
Proof.
  destruct r as [m b]. open_reads. branches; first [by left | by_hset].
Qed.

Lemma UpdateScore_store r s :
  let o := serve UpdateScoreHandler r s in
  let u := (Decode (Body r)).1 in
  store o = s
  \/ exists n, store o =
       (Redis.hset s "scores" (Email u) (Strconv.Itoa (Strconv.wrap n))).1.
Proof.
  destruct r as [m b]. open_reads. unfold Strconv.add_int.
  branches; first [by left | by_hset].
Qed.

Lemma hset_ok s key field val s' :
  Redis.hset s key field val = (s', None) ->
  (exists h, Redis.collection s key = Some h
     /\ Redis.collection s' key = Some (<[field := val]> h))
  /\ (forall k, k <> key -> s' !! k = s !! k).
Proof.
  unfold Redis.hset, Redis.collection.
  destruct (s !! key) as [[?|h]|]; intros [= <-];
    (split; [eexists; split; [done|]|]).
  - by rewrite lookup_insert_eq.
  - intros k Hk. by rewrite lookup_insert_ne.
  - by rewrite lookup_insert_eq, insert_empty.
  - intros k Hk. by rewrite lookup_insert_ne.
Qed.

Lemma Signup_created r s :
  let o := serve SignupHandler r s in
  let u := (Decode (Body r)).1 in
  StatusCode (response o) = StatusCreated ->
  well_formed r u
  /\ (exists h, Redis.collection s "users" = Some h
        /\ Redis.collection (store o) "users"
             = Some (<[Email u := Password u]> h))
  /\ (forall key, key <> "users" -> store o !! key = s !! key)
  /\ commands o = [GET (Email u); HSET "users" (Email u) (Password u)].
Proof.
  destruct r as [m [raw|u]]; unfold well_formed;
    open_reads; branches; try done; intros _.
  all: match goal with
       | H : Redis.hset _ _ _ _ = (_, ?e), F : failed ?e = false |- _ =>
           destruct e; [discriminate F|]; apply hset_ok in H as [? ?]
       end.
  all: (split; [split; [by apply String.eqb_neq | done]|]); done.
Qed.

Lemma Signup_not_created r s :
  let o := serve SignupHandler r s in
  StatusCode (response o) <> StatusCreated -> store o = s.
Proof.
  destruct r as [m b]. open_handlers. branches; try done;
    intros Hne; exfalso; by apply Hne.
Qed.

(** X14: what a Signup does, on any request and any store. Either it
    is not answered 201 and the store is as it was; or it is answered
    201, the request was well-formed, exactly the commands GET and HSET
    were sent, the user collection has the password under the email and
    is otherwise as before, and every other key is as it was. *)
Theorem Signup_exact_effect r s :
  let o := serve SignupHandler r s in
  let u := (Decode (Body r)).1 in
  (StatusCode (response o) <> StatusCreated /\ store o = s)
  \/ (StatusCode (response o) = StatusCreated
      /\ well_formed r u
      /\ (exists h, Redis.collection s "users" = Some h
            /\ Redis.collection (store o) "users"
                 = Some (<[Email u := Password u]> h))
      /\ (forall key, key <> "users" -> store o !! key = s !! key)
      /\ commands o = [GET (Email u); HSET "users" (Email u) (Password u)]).
Proof.
  cbn zeta.
  destruct (decide (StatusCode (response (serve SignupHandler r s))
                    = StatusCreated)) as [H201|Hnot].
  - right. split; [done|]. by apply Signup_created.
  - left. split; [done|]. by apply Signup_not_created.
Qed.

(** ** What holds in every store the handlers build *)

Lemma numeric_scores_empty : numeric_scores ∅.
Proof.
  intros hs email v Hc Hl. unfold Redis.collection in Hc.
  rewrite lookup_empty in Hc. by simplify_map_eq.
Qed.

Lemma numeric_scores_hset_other s key field val :
  key <> "scores" -> numeric_scores s ->
  numeric_scores (Redis.hset s key field val).1.
Proof.
  intros Hk Hs hs email v Hc Hl. apply (Hs hs email v); [|done].
  unfold Redis.collection, Redis.hset in *.
  destruct (s !! key) as [[?|?]|]; cbn in Hc; [done| |];
    by rewrite lookup_insert_ne in Hc.
Qed.

Lemma numeric_scores_hset s field n :
  numeric_scores s ->
  numeric_scores (Redis.hset s "scores" field (Strconv.Itoa (Strconv.wrap n))).1.
Proof.
  intros Hs hs email v Hc Hl.
  unfold Redis.collection, Redis.hset in *.
  destruct (s !! "scores") as [[?|h]|] eqn:Hsc; cbn in Hc.
  - by rewrite Hsc in Hc.
  - rewrite lookup_insert_eq in Hc. simplify_eq.
    destruct (decide (field = email)) as [->|Hne].
    + rewrite lookup_insert_eq in Hl. simplify_eq. eexists.
      apply StrconvFacts.Atoi_Itoa, StrconvFacts.wrap_range.
    + rewrite lookup_insert_ne in Hl by done.
      apply (Hs h email v); [|done]. unfold Redis.collection. by rewrite Hsc.
  - rewrite lookup_insert_eq in Hc. simplify_eq.
    destruct (decide (field = email)) as [->|Hne].
    + rewrite lookup_singleton_eq in Hl. simplify_eq. eexists.
      apply StrconvFacts.Atoi_Itoa, StrconvFacts.wrap_range.
    + by rewrite lookup_singleton_ne in Hl.
Qed.

Lemma handler_numeric rt r s :
  numeric_scores s -> numeric_scores (store (serve (handler rt) r s)).
Proof.
  intros Hs. destruct rt; cbn [handler].
  - destruct (Signup_store r s) as [->| ->]; [done|].
    by apply numeric_scores_hset_other.
  - by rewrite <- (steps_serve eq _ r s (ListUsers_readonly r)).
  - by rewrite <- (steps_serve eq _ r s (Login_readonly r)).
  - destruct (UpdateScore_store r s) as [->|[n ->]]; [done|].
    by apply numeric_scores_hset.
  - by rewrite <- (steps_serve eq _ r s (GetScore_readonly r)).
Qed.

Lemma run_numeric reqs : forall s, numeric_scores s -> numeric_scores (run reqs s).
Proof.
  induction reqs as [|[rt r] reqs IH]; intros s Hs; [done|].
  cbn [run]. by apply IH, handler_numeric.
Qed.

Lemma served_scores s : served s -> is_Some (Redis.collection s "scores").
Proof.
  intros Hs. unfold Redis.collection.
  destruct (s !! "scores") as [[?|?]|] eqn:Hl; eauto.
  destruct (Hs _ _ Hl) as [_ [h Hh]]. discriminate Hh.
Qed.

(** What [ParseUint] has read is not negative. *)
Lemma parse_digits_ge s : forall acc n,
  Strconv.parse_digits acc s = Some n -> 0 <= acc -> 0 <= n.
Proof.
  induction s as [|c s IH]; intros acc n Hp Hacc; cbn in Hp.
  - by simplify_eq.
  - destruct (Strconv.is_digit c) eqn:Hc; [|done].
    apply (IH _ _ Hp). unfold Strconv.is_digit, Strconv.digit_val in *.
    apply andb_true_iff in Hc as [Hlo _]. apply Nat.leb_le in Hlo. lia.
Qed.

Lemma Atoi_in_int v n : Strconv.Atoi v = Some n -> Strconv.in_int n.
Proof.
  unfold Strconv.Atoi, Strconv.in_int, Strconv.MinInt, Strconv.MaxInt.
  destruct v as [|c rest]; [done|].
  destruct (if (Ascii.eqb c "-" || Ascii.eqb c "+")%bool
            then rest else String c rest) as [|c' rest'] eqn:Hd; [done|].
  destruct (Strconv.parse_digits 0 (String c' rest')) as [un|] eqn:Hp; [|done].
  apply parse_digits_ge in Hp; [|lia].
  destruct (Ascii.eqb c "-").
  - destruct (Z.ltb_spec (2 ^ 63) un); intros; simplify_eq. lia.
  - destruct (Z.leb_spec (2 ^ 63) un); intros; simplify_eq. lia.
Qed.

(** X12: whatever requests are served, starting from the empty store,
    the store holds nothing but the two hashes [users] and [scores] (no
    handler ever writes a plain key), and every field of [scores] is a
    decimal [int]. *)
Theorem reachable_stores reqs :
  served (run reqs ∅) /\ numeric_scores (run reqs ∅).
Proof.
  split; [apply run_served, served_empty
         |apply run_numeric, numeric_scores_empty].
Qed.

(** X13: after any run of requests from the empty store, a well-formed
    GetScore is answered 200 with the stored score of its email, an
    [int]: it is never answered with an error. *)
Theorem GetScore_never_fails reqs r u :
  well_formed r u ->
  exists n, Strconv.in_int n
    /\ stored_score (run reqs ∅) (Email u) = Some n
    /\ reply (serve GetHighestScoreHandler r (run reqs ∅))
         = (StatusOK, [Json (MarshalScore n)]).
Proof.
  intros Hr.
  pose proof (run_served reqs ∅ served_empty) as Hserved.
  pose proof (run_numeric reqs ∅ numeric_scores_empty) as Hnum.
  destruct (served_scores _ Hserved) as [hs Hhs].
  assert (exists n, stored_score (run reqs ∅) (Email u) = Some n
                    /\ Strconv.in_int n) as (n & Hn & Hrange).
  { unfold stored_score. rewrite Hhs.
    destruct (hs !! Email u) as [v|] eqn:Hv.
    - destruct (Hnum hs _ v Hhs Hv) as [n Hn]. exists n. split; [done|].
      by apply (Atoi_in_int v).
    - exists 0. split; [done|].
      unfold Strconv.in_int, Strconv.MinInt, Strconv.MaxInt. lia. }
  exists n. split; [done|]. split; [done|].
  by apply (GetScore_reads _ r u n).
Qed.

Lemma GetScore_never_fails_witness :
  let reqs := [(Signup, post (mkUser "a@b.c" "pw" 0));
               (UpdateScore, post (mkUser "a@b.c" "" Strconv.MaxInt));
               (UpdateScore, post (mkUser "a@b.c" "" 1))] in
  exists n, Strconv.in_int n
    /\ stored_score (run reqs ∅) "a@b.c" = Some n
    /\ reply (serve GetHighestScoreHandler (post (mkUser "a@b.c" "" 0))
                (run reqs ∅))
         = (StatusOK, [Json (MarshalScore n)]).
Proof.
  intros reqs.
  apply (GetScore_never_fails reqs (post (mkUser "a@b.c" "" 0))
           (mkUser "a@b.c" "" 0) (well_formed_post _)).
Defined.

(** ** Requests one after the other *)

(** X15: a user who signs up with a non-empty password (201) can have
    the score updated right away: the UpdateScore is answered 200 and a
    GetScore then answers the [int] sum of the score the store had for
    the email and the delta. *)
Theorem Signup_then_UpdateScore s r u ru uu rq uq prev :
  well_formed r u -> Password u <> "" ->
  well_formed ru uu -> Email uu = Email u ->
  well_formed rq uq -> Email uq = Email u ->
  stored_score s (Email u) = Some prev ->
  let o1 := serve SignupHandler r s in
  let o2 := serve UpdateScoreHandler ru (store o1) in
  let o3 := serve GetHighestScoreHandler rq (store o2) in
  StatusCode (response o1) = StatusCreated ->
  reply o2 = (StatusOK, [Text "User score updated successfully"])
  /\ reply o3 = (StatusOK, [Json (MarshalScore (Strconv.add_int prev (Score uu)))])
  /\ Strconv.in_int (Strconv.add_int prev (Score uu)).
Proof.
  intros Hr Hpw Hru Heu Hrq Heq Hprev. cbn zeta. intros H201.
  destruct (Signup_created r s H201) as (_ & (h & _ & Husers) & Hframe & _).
  destruct Hr as [Hm Hb]. rewrite Hb in Husers. cbn in Husers.
  assert (stored_score (store (serve SignupHandler r s)) (Email uu) = Some prev)
    as Hprev'.
  { rewrite Heu. unfold stored_score, Redis.collection in *.
    by rewrite Hframe. }
  destruct (UpdateScore_adds _ ru uu _ (Password u) prev Hru Husers)
    as (Hreply & Hscore & _); try done.
  { rewrite Heu. by rewrite lookup_insert_eq. }
  split; [done|]. split; [|apply StrconvFacts.wrap_range].
  rewrite Heu, <- Heq in Hscore.
  by destruct (GetScore_reads _ rq uq _ Hrq Hscore).
Qed.

Lemma Signup_then_UpdateScore_witness :
  let o1 := serve SignupHandler (post (mkUser "a@b.c" "pw" 0)) ∅ in
  let o2 := serve UpdateScoreHandler (post (mkUser "a@b.c" "" 7)) (store o1) in
  let o3 := serve GetHighestScoreHandler (post (mkUser "a@b.c" "" 0)) (store o2) in
  reply o2 = (StatusOK, [Text "User score updated successfully"])
  /\ reply o3 = (StatusOK, [Json (MarshalScore (Strconv.add_int 0 7))])
  /\ Strconv.in_int (Strconv.add_int 0 7).
Proof.
  apply (Signup_then_UpdateScore ∅
           (post (mkUser "a@b.c" "pw" 0)) (mkUser "a@b.c" "pw" 0)
           (post (mkUser "a@b.c" "" 7)) (mkUser "a@b.c" "" 7)
           (post (mkUser "a@b.c" "" 0)) (mkUser "a@b.c" "" 0) 0);
    first [apply well_formed_post | discriminate | reflexivity].
Defined.

(** X16: for a user with a non-empty password, UpdateScore sends
    exactly HGET users, HGET scores and HSET scores, is answered 200,
    and stores the sum of the previous score and the delta wrapped to 64
    bits; a GetScore right after reads that number back, whatever the
    delta. *)
Theorem UpdateScore_then_GetScore s r u hu pw prev rq uq :
  well_formed r u ->
  Redis.collection s "users" = Some hu ->
  hu !! Email u = Some pw ->
  pw <> "" ->
  stored_score s (Email u) = Some prev ->
  well_formed rq uq -> Email uq = Email u ->
  let o := serve UpdateScoreHandler r s in
  let total := Strconv.wrap (prev + Score u) in
  reply o = (StatusOK, [Text "User score updated successfully"])
  /\ Strconv.in_int total
  /\ commands o = [HGET "users" (Email u); HGET "scores" (Email u);
                   HSET "scores" (Email u) (Strconv.Itoa total)]
  /\ reply (serve GetHighestScoreHandler rq (store o))
       = (StatusOK, [Json (MarshalScore total)]).
Proof.
  intros Hr Hu Hp Hpw Hprev Hrq Heq. cbn zeta.
  destruct (UpdateScore_adds s r u hu pw prev Hr Hu Hp Hpw Hprev)
    as (Hreply & Hscore & _).
  split; [done|]. split; [apply StrconvFacts.wrap_range|]. split.
  - destruct (Int_hget_scores _ _ _ Hprev) as [Hn Herr].
    enter Hr.
    assert (Redis.hget s "users" (Email u) = (pw, None)) as ->.
    { unfold Redis.hget, Redis.collection in *.
      destruct (s !! "users") as [[?|?]|]; simplify_eq; by rewrite ?Hp. }
    cbn. rewrite (proj2 (String.eqb_neq _ _) Hpw). cbn.
    destruct (Redis.Int (Redis.hget s "scores" (Email u))) as [n e].
    cbn in Hn, Herr. subst n. rewrite Herr. unfold HSet, Strconv.add_int. cbn.
    by destruct (Redis.hset s "scores" (Email u) _) as [s' [e'|]].
  - rewrite <- Heq in Hscore.
    by destruct (GetScore_reads _ rq uq _ Hrq Hscore).
Qed.

Lemma UpdateScore_then_GetScore_witness :
  let s : gmap string value :=
    {["users" := RHash {["a@b.c" := "pw"]};
      "scores" := RHash {["a@b.c" := "9223372036854775807"]}]} in
  let o := serve UpdateScoreHandler (post (mkUser "a@b.c" "" 1)) s in
  let total := Strconv.wrap (Strconv.MaxInt + 1) in
  total = Strconv.MinInt
  /\ reply o = (StatusOK, [Text "User score updated successfully"])
  /\ Strconv.in_int total
  /\ commands o = [HGET "users" "a@b.c"; HGET "scores" "a@b.c";
                   HSET "scores" "a@b.c" (Strconv.Itoa total)]
  /\ reply (serve GetHighestScoreHandler (post (mkUser "a@b.c" "" 0)) (store o))
       = (StatusOK, [Json (MarshalScore total)]).
Proof.
  intros s o total. split; [reflexivity|].
  apply (UpdateScore_then_GetScore s
           (post (mkUser "a@b.c" "" 1)) (mkUser "a@b.c" "" 1)
           {["a@b.c" := "pw"]} "pw" Strconv.MaxInt
           (post (mkUser "a@b.c" "" 0)) (mkUser "a@b.c" "" 0));
    first [apply well_formed_post | discriminate | reflexivity].
Defined.

(** ** What a response looks like *)


(** ** The earlier revision, at its edges *)

Lemma Signup_twice_rev1_witness :
  let o1 := serve Rev1.SignupHandler (post (mkUser "a@b.c" "pw" 0)) ∅ in
  let o2 := serve Rev1.SignupHandler (post (mkUser "a@b.c" "other" 0)) (store o1) in
  reply o2 = (StatusBadRequest, [message "User already exists"])
  /\ store o2 = store o1
  /\ commands o2 = [GET "a@b.c"].
Proof.
  apply (Signup_twice_rev1 ∅ (post (mkUser "a@b.c" "pw" 0)) (mkUser "a@b.c" "pw" 0)
           (post (mkUser "a@b.c" "other" 0)) (mkUser "a@b.c" "other" 0)
           (well_formed_post _) (well_formed_post _));
    [reflexivity | discriminate | reflexivity].
Defined.

Lemma Login_after_Signup_rev1_witness :
  let o1 := serve Rev1.SignupHandler (post (mkUser "a@b.c" "pw" 0)) ∅ in
  reply (serve LoginHandler (post (mkUser "a@b.c" "pw" 0)) (store o1))
    = (StatusOK, [message "Login successful"]).
Proof.
  apply (Login_after_Signup_rev1 ∅ (post (mkUser "a@b.c" "pw" 0))
           (mkUser "a@b.c" "pw" 0) (post (mkUser "a@b.c" "pw" 0))
           (mkUser "a@b.c" "pw" 0) (well_formed_post _) (well_formed_post _));
    reflexivity.
Defined.

(** X20: in the earlier revision an account signed up with the empty
    password is not protected by the existence check: a second signup
    for the email is answered 201 again and its password replaces the
    first. *)
Theorem Signup_empty_password_rev1 s r1 u1 r2 u2 :
  well_formed r1 u1 ->
  well_formed r2 u2 ->
  Email u2 = Email u1 ->
  Password u1 = "" ->
  let o1 := serve Rev1.SignupHandler r1 s in
  let o2 := serve Rev1.SignupHandler r2 (store o1) in
  StatusCode (response o1) = StatusCreated ->
  reply o2 = (StatusCreated, [Text "User signed up successfully"])
  /\ store o2 !! Email u1 = Some (RString (Password u2)).
Proof.
  intros [Hm1 Hb1] [Hm2 Hb2] He Hpw.
  unfold reply, serve, Rev1.SignupHandler, bind, cors, bind. cbn.
  rewrite Hb1, Hb2, (proj2 (String.eqb_neq _ _) Hm1),
    (proj2 (String.eqb_neq _ _) Hm2). cbn. rewrite He, Hpw.
  unfold Redis.get, Rev1.Set_.
  destruct (s !! Email u1) as [[stored|?]|]; cbn; [|done|].
  - destruct (stored =? "")%string; cbn; [|done].
    rewrite lookup_insert_eq. cbn. by rewrite lookup_insert_eq.
  - rewrite lookup_insert_eq. cbn. by rewrite lookup_insert_eq.
Qed.

Lemma Signup_empty_password_rev1_witness :
  let o1 := serve Rev1.SignupHandler (post (mkUser "a@b.c" "" 0)) ∅ in
  let o2 := serve Rev1.SignupHandler (post (mkUser "a@b.c" "taken" 0)) (store o1) in
  reply o2 = (StatusCreated, [Text "User signed up successfully"])
  /\ store o2 !! "a@b.c" = Some (RString "taken").
Proof.
  apply (Signup_empty_password_rev1 ∅
           (post (mkUser "a@b.c" "" 0)) (mkUser "a@b.c" "" 0)
           (post (mkUser "a@b.c" "taken" 0)) (mkUser "a@b.c" "taken" 0)
           (well_formed_post _) (well_formed_post _));
    reflexivity.
Defined.

Lemma Signup_never_turned_down_witness :
  let reqs := [(Signup, post (mkUser "a@b.c" "pw" 0))] in
  reply (serve SignupHandler (post (mkUser "a@b.c" "other" 0)) (run reqs ∅))
    = (StatusCreated, [Text "User signed up successfully"]).
Proof.
  apply (Signup_never_turned_down [(Signup, post (mkUser "a@b.c" "pw" 0))]
           (post (mkUser "a@b.c" "other" 0)) (mkUser "a@b.c" "other" 0)
           (well_formed_post _));
    discriminate.
Defined.

Lemma Login_never_finds_witness :
  let reqs := [(Signup, post (mkUser "a@b.c" "pw" 0))] in
  reply (serve LoginHandler (post (mkUser "a@b.c" "pw" 0)) (run reqs ∅))
    = (StatusNotFound, [Text "User not found"]).
Proof.
  apply (Login_never_finds [(Signup, post (mkUser "a@b.c" "pw" 0))]
           (post (mkUser "a@b.c" "pw" 0)) (mkUser "a@b.c" "pw" 0)
           (well_formed_post _));
    discriminate.
Defined.
